(** * Sales dashboard: filter engine, KPI calculator and aggregations

    A shallow embedding of [sales.py].  A pandas [DataFrame] is a list of
    rows in index order; a column is the projection of one field.  An
    amount in a [float64] column is given by the rational it stands for.
    [Qsum] and [mean] are the exact sum and mean of a column.  pandas and
    NumPy add in binary64, where every addition rounds; module [F64] gives
    the sums as they compute them.  NaN (the mean of an empty column) is
    kept apart from the numbers. *)

From Stdlib Require Import QArith.
From Corelib Require Import PrimFloat.
From stdpp Require Import gmap strings list sorting pretty.

(** ** Data model *)

Record date := { year : Z; month : Z; day : Z }.

(** [df['Order Date'].dt.to_period('M')] *)
Definition to_period_M (d : date) : Z * Z := (year d, month d).

Record row := {
  Order_ID : string;
  Order_Date : date;
  Customer_ID : string;
  Customer_Name : string;
  Region : string;
  Category : string;
  Sub_Category : string;
  Sales : Q;
  Quantity : Z;
  Discount : Q;
  Profit : Q;
  Payment_Method : string;
  Customer_Segment : string;
  Shipping_Type : string;
  Product_ID : string;
  Product_Name : string;
  YearMonth : Z * Z
}.

Abbreviation DataFrame := (list row).

Definition categories : list string :=
  ["Electronics"; "Clothing"; "Home & Kitchen"; "Books"; "Toys"; "Sports"].
Definition regions : list string := ["North"; "South"; "East"; "West"].
Definition payment_methods : list string :=
  ["Credit Card"; "PayPal"; "Bank Transfer"; "Cash on Delivery"].
Definition customer_segments : list string :=
  ["Consumer"; "Corporate"; "Home Office"].
Definition shipping_types : list string :=
  ["Standard Class"; "Second Class"; "First Class"; "Same Day"].

(** ** Filter engine *)

(** The values returned by the four sidebar multiselect widgets. *)
Record selection := {
  selected_region : list string;
  selected_category : list string;
  selected_payment : list string;
  selected_segment : list string
}.

(** [frame[frame[col].isin(values)]]: boolean-mask indexing keeps the rows
    whose [col] value is one of [values], in their original order. *)
Definition isin_rows (col : row → string) (values : list string)
    (frame : DataFrame) : DataFrame :=
  filter (λ r, col r ∈ values) frame.

(** One [if 'All' not in selected: ...] step of [apply_filters]. *)
Definition filter_step (col : row → string) (selected : list string)
    (filtered_df : DataFrame) : DataFrame :=
  if decide ("All" ∉ selected) then isin_rows col selected filtered_df
  else filtered_df.

Definition apply_filters (sel : selection) (df : DataFrame) : DataFrame :=
  let filtered_df := df in
  let filtered_df := filter_step Region (selected_region sel) filtered_df in
  let filtered_df := filter_step Category (selected_category sel) filtered_df in
  let filtered_df := filter_step Payment_Method (selected_payment sel) filtered_df in
  let filtered_df := filter_step Customer_Segment (selected_segment sel) filtered_df in
  filtered_df.

(** The default state of the sidebar, and a sidebar with every widget
    cleared. *)
Definition all_selected : selection :=
  {| selected_region := ["All"]; selected_category := ["All"];
     selected_payment := ["All"]; selected_segment := ["All"] |}.

Definition nothing_selected : selection :=
  {| selected_region := []; selected_category := [];
     selected_payment := []; selected_segment := [] |}.

(** The four filter dimensions, to speak of one of them at a time. *)
Inductive dimension := DRegion | DCategory | DPayment | DSegment.

Global Instance dimension_eq_dec : EqDecision dimension.
Proof. solve_decision. Defined.

Definition column (d : dimension) : row → string :=
  match d with
  | DRegion => Region
  | DCategory => Category
  | DPayment => Payment_Method
  | DSegment => Customer_Segment
  end.

Definition chosen (d : dimension) (sel : selection) : list string :=
  match d with
  | DRegion => selected_region sel
  | DCategory => selected_category sel
  | DPayment => selected_payment sel
  | DSegment => selected_segment sel
  end.

(** The sidebar state [sel] with the widget of dimension [d] set to
    [values]. *)
Definition choose (d : dimension) (values : list string) (sel : selection)
    : selection :=
  {| selected_region := if d is DRegion then values else selected_region sel;
     selected_category := if d is DCategory then values else selected_category sel;
     selected_payment := if d is DPayment then values else selected_payment sel;
     selected_segment := if d is DSegment then values else selected_segment sel |}.

(** What one dimension lets through. *)
Definition allows (selected : list string) (v : string) : Prop :=
  "All" ∈ selected ∨ v ∈ selected.

Definition passes (sel : selection) (r : row) : Prop :=
  allows (selected_region sel) (Region r) ∧
  allows (selected_category sel) (Category r) ∧
  allows (selected_payment sel) (Payment_Method r) ∧
  allows (selected_segment sel) (Customer_Segment r).

Global Instance allows_dec selected v : Decision (allows selected v).
Proof. unfold allows. apply _. Defined.

Global Instance passes_dec sel r : Decision (passes sel r).
Proof. unfold passes. apply _. Defined.

(** ** The filter engine on frame objects

    The same function with frames as objects in a store, to tell a new
    frame from an update of an existing one.  [df.copy()] and boolean-mask
    indexing each build a new object; the local variable [filtered_df] is
    rebound to it.  A program takes the store and gives a result and the
    next store, or fails when it reads an address that holds no frame. *)

Module Obj.
Abbreviation loc := nat.
Abbreviation store := (gmap nat (list row)).

Definition prog (A : Type) : Type := store → option (A * store).

Global Instance prog_ret : MRet prog := λ A x σ, Some (x, σ).
Global Instance prog_bind : MBind prog := λ A B k m σ,
  match m σ with
  | Some (x, σ') => k x σ'
  | None => None
  end.

(** Construct a new frame object. *)
Definition new_frame (rows : list row) : prog loc := λ σ,
  let l := fresh (dom σ) in Some (l, <[l := rows]> σ).

Definition read (frame : loc) : prog (list row) := λ σ,
  match σ !! frame with
  | Some rows => Some (rows, σ)
  | None => None
  end.

(** [frame.copy()] *)
Definition copy (frame : loc) : prog loc :=
  rows ← read frame; new_frame rows.

(** [frame[frame[col].isin(values)]] *)
Definition getitem_isin (col : row → string) (values : list string)
    (frame : loc) : prog loc :=
  rows ← read frame; new_frame (isin_rows col values rows).

Definition filter_step (col : row → string) (selected : list string)
    (filtered_df : loc) : prog loc :=
  if decide ("All" ∉ selected) then getitem_isin col selected filtered_df
  else mret filtered_df.

Definition apply_filters (sel : selection) (df : loc) : prog loc :=
  filtered_df ← copy df;
  filtered_df ← filter_step Region (selected_region sel) filtered_df;
  filtered_df ← filter_step Category (selected_category sel) filtered_df;
  filtered_df ← filter_step Payment_Method (selected_payment sel) filtered_df;
  filtered_df ← filter_step Customer_Segment (selected_segment sel) filtered_df;
  mret filtered_df.
End Obj.

(** ** Metrics calculator *)

(** A float result: a rational, or NaN. *)
Inductive number := Num (q : Q) | NaN.

(** The exact sum of a column; [Series.sum()] and the group sums add the
    same values in binary64 ([F64.np_sum], [F64.group_sum]).  The sum of an
    empty column is 0. *)
Definition Qsum (col : list Q) : Q := foldr Qplus 0%Q col.

(** The exact mean of a column; [Series.mean()] divides the binary64 sum
    by the count ([F64.mean]).  The mean of an empty column is NaN. *)
Definition mean (col : list Q) : number :=
  match col with
  | [] => NaN
  | _ => Num (Qsum col / inject_Z (Z.of_nat (length col)))
  end.

Record kpis := {
  total_sales : Q;
  average_profit : number;
  average_quantity : number;
  total_orders : nat
}.

Definition calculate_kpis (df : DataFrame) : kpis :=
  if decide (length df = 0) then
    {| total_sales := 0; average_profit := Num 0; average_quantity := Num 0;
       total_orders := 0 |}
  else
    {| total_sales := Qsum (Sales <$> df);
       average_profit := mean (Profit <$> df);
       average_quantity := mean ((λ r, inject_Z (Quantity r)) <$> df);
       total_orders := length df |}.

(** ** Aggregation pipeline *)

(** Group keys are compared as Python compares strings and tuples of
    strings. *)
Definition string_le (a b : string) : Prop := String.leb a b = true.

Definition pair_le (a b : string * string) : Prop :=
  match String.compare a.1 b.1 with
  | Eq => string_le a.2 b.2
  | Lt => True
  | Gt => False
  end.

Global Instance string_le_dec : RelDecision string_le.
Proof. intros a b. unfold string_le. apply _. Defined.

Global Instance pair_le_dec : RelDecision pair_le.
Proof. intros a b. unfold pair_le. destruct (String.compare a.1 b.1); apply _. Defined.

(** [df.groupby(key)]: one group per distinct key, the keys in ascending
    order, every group holding its rows in frame order. *)
Definition groupby {K} `{EqDecision K} (le : relation K) `{!RelDecision le}
    (key : row → K) (df : DataFrame) : list (K * DataFrame) :=
  (λ k, (k, filter (λ r, key r = k) df)) <$>
  merge_sort le (remove_dups (key <$> df)).

(** [.sum()], [.size()] on the groups of one column. *)
Definition group_sum {K} (col : row → Q) (g : K * DataFrame) : K * Q :=
  (g.1, Qsum (col <$> g.2)).

Definition group_size {K} (g : K * DataFrame) : K * nat :=
  (g.1, length g.2).

Global Instance Qle_dec (a b : Q) : Decision (a <= b)%Q.
Proof.
  destruct (Qlt_le_dec b a) as [H|H]; [right|left; exact H].
  intros H'. exact (Qlt_not_le _ _ H H').
Defined.

Global Instance Qlt_dec (a b : Q) : Decision (a < b)%Q.
Proof.
  destruct (Qlt_le_dec a b) as [H|H]; [left; exact H|right].
  intros H'. exact (Qlt_not_le _ _ H' H).
Defined.

(** [.sort_values(ascending=False)] on a keyed series.  Entries with equal
    values stay in key order here; pandas does not promise an order for
    them. *)
Definition sort_values_desc {K} (s : list (K * Q)) : list (K * Q) :=
  merge_sort (λ a b, (b.2 <= a.2)%Q) s.

(** Item 2: [df.groupby('Region')['Sales'].sum().sort_values(ascending=False)] *)
Definition sales_by_region (df : DataFrame) : list (string * Q) :=
  sort_values_desc (group_sum Sales <$> groupby string_le Region df).

(** A two-dimensional table of counts: row labels, column labels and one
    list of cells per row label. *)
Record grid := {
  index : list string;
  columns : list string;
  cells : list (list nat)
}.

(** [.unstack(fill_value=...)] of a series keyed by pairs: the row labels
    are the first components that occur in the keys, the column labels the
    second components that occur, and a pair without an entry gets
    [fill_value]. *)
Definition unstack (fill_value : nat) (s : list ((string * string) * nat))
    : grid :=
  let entries : gmap (string * string) nat := list_to_map s in
  let idx := merge_sort string_le (remove_dups ((λ e, e.1.1) <$> s)) in
  let cols := merge_sort string_le (remove_dups ((λ e, e.1.2) <$> s)) in
  {| index := idx;
     columns := cols;
     cells := (λ i, (λ c, default fill_value (entries !! (i, c))) <$> cols)
              <$> idx |}.

(** The grouping key of item 8. *)
Definition pair_key (r : row) : string * string :=
  (Customer_Segment r, Shipping_Type r).

(** Item 8:
    [df.groupby(['Customer Segment', 'Shipping Type']).size().unstack(fill_value=0)] *)
Definition order_counts (df : DataFrame) : grid :=
  unstack 0 (group_size <$> groupby pair_le pair_key df).

(** How many rows of [df] have segment [s] and shipping type [t]. *)
Definition count_pair (df : DataFrame) (s t : string) : nat :=
  length (filter (λ r, pair_key r = (s, t)) df).

(** The count shown for segment [s] and shipping type [t], if the grid has
    a cell for them. *)
Definition cell (g : grid) (s t : string) : option nat :=
  i ← list_find (λ x, x = s) (index g) ;
  j ← list_find (λ x, x = t) (columns g) ;
  line ← cells g !! i.1 ;
  line !! j.1.

Definition n_cells (g : grid) : nat := length (concat (cells g)).

(** ** Record generator

    The start-up code draws from three random sources: Python's global
    [random] and NumPy's global generator, both seeded with 42, and the
    generator that the [Faker()] object owns, which the program never
    seeds.  What the three libraries compute is not part of this
    repository; it is an interface here.  The state in which Faker's
    generator starts (the operating system's entropy when the process
    starts) and the date of the run are inputs of the generation. *)

Class random_sources := {
  py_rng : Type;
  np_rng : Type;
  fk_rng : Type;
  (** [random.seed], [np.random.seed] *)
  py_seed : Z → py_rng;
  np_seed : Z → np_rng;
  (** the index draw behind [random.choice] and [random.randint]; the
      library returns an index below its argument *)
  py_randbelow : nat → py_rng → nat * py_rng;
  (** [np.random.exponential(scale)], [np.random.normal(loc, scale)] *)
  np_exponential : Q → np_rng → Q * np_rng;
  np_normal : Q → Q → np_rng → Q * np_rng;
  (** [fake.uuid4()], [fake.date_between('-2y', 'today')] on a given day,
      [fake.name()], [fake.word()] *)
  fk_uuid4 : fk_rng → string * fk_rng;
  fk_date_between : date → fk_rng → date * fk_rng;
  fk_name : fk_rng → string * fk_rng;
  fk_word : fk_rng → string * fk_rng
}.

Definition n_rows : nat := Z.to_nat 10000.

(** [round(x, 2)]: to the nearest hundredth, ties to the even one. *)
Definition round2 (x : Q) : Q :=
  let n := (Qnum x * 100)%Z in
  let d := Z.pos (Qden x) in
  let q := (n / d)%Z in
  let r := (n mod d)%Z in
  let up := if decide (d < 2 * r)%Z then true
            else if decide (2 * r < d)%Z then false
            else Z.odd q in
  inject_Z (if up then q + 1 else q) / 100.

(** [str.capitalize()] on ASCII text. *)
Definition upper (c : Ascii.ascii) : Ascii.ascii :=
  let n := Ascii.nat_of_ascii c in
  if decide (97 ≤ n ≤ 122) then Ascii.ascii_of_nat (n - 32) else c.

Definition lower (c : Ascii.ascii) : Ascii.ascii :=
  let n := Ascii.nat_of_ascii c in
  if decide (65 ≤ n ≤ 90) then Ascii.ascii_of_nat (n + 32) else c.

Fixpoint lower_all (s : string) : string :=
  match s with
  | EmptyString => EmptyString
  | String c s' => String (lower c) (lower_all s')
  end.

Definition capitalize (s : string) : string :=
  match s with
  | EmptyString => EmptyString
  | String c s' => String (upper c) (lower_all s')
  end.

(** [[draw() for _ in range(n)]] *)
Fixpoint draws {S A} (n : nat) (draw : S → A * S) (g : S) : list A * S :=
  match n with
  | 0 => ([], g)
  | S n' => let x := draw g in
            let xs := draws n' draw x.2 in
            (x.1 :: xs.1, xs.2)
  end.

Section generator.
Context {L : random_sources}.

(** [random.choice(seq)] is [seq[randbelow(len(seq))]]. *)
Definition choice {A} (default : A) (seq : list A) (g : py_rng)
    : A * py_rng :=
  let i := py_randbelow (length seq) g in (nth i.1 seq default, i.2).

(** The contract of the index draw: an index below the bound. *)
Definition randbelow_in_range : Prop :=
  ∀ n g, 0 < n → (py_randbelow n g).1 < n.

(** [random.randint(a, b)] is [a + randbelow(b - a + 1)]. *)
Definition randint (a b : Z) (g : py_rng) : Z * py_rng :=
  let i := py_randbelow (Z.to_nat (b - a + 1)) g in
  ((a + Z.of_nat i.1)%Z, i.2).

Definition skewed_sales (g : np_rng) : Q * np_rng :=
  let x := np_exponential 100 g in (round2 x.1, x.2).

Definition skewed_profit (g : np_rng) : Q * np_rng :=
  let x := np_normal 10 20 g in
  let profit := round2 x.1 in
  ((if decide (profit < 0)%Q then 0%Q else profit), x.2).

Definition discount (g : py_rng) : Q * py_rng :=
  let x := choice 0%Q [0; 1 # 10; 2 # 10; 3 # 10]%Q g in (round2 x.1, x.2).

Definition product_name (g : fk_rng) : string * fk_rng :=
  let w1 := fk_word g in
  let w2 := fk_word w1.2 in
  (capitalize w1.1 +:+ " " +:+ capitalize w2.1, w2.2).

(** The dict [data]: sixteen columns of [n] values, built one column
    after the other. *)
Record columns_of_data := {
  c_Order_ID : list string;
  c_Order_Date : list date;
  c_Customer_ID : list string;
  c_Customer_Name : list string;
  c_Region : list string;
  c_Category : list string;
  c_Sub_Category : list string;
  c_Sales : list Q;
  c_Quantity : list Z;
  c_Discount : list Q;
  c_Profit : list Q;
  c_Payment_Method : list string;
  c_Customer_Segment : list string;
  c_Shipping_Type : list string;
  c_Product_ID : list string;
  c_Product_Name : list string
}.

Definition data_n (n : nat) (today : date) (entropy : fk_rng)
    : columns_of_data :=
  let np0 := np_seed 42 in
  let py0 := py_seed 42 in
  let order_id := draws n fk_uuid4 entropy in
  let order_date := draws n (fk_date_between today) order_id.2 in
  let customer_id := draws n fk_uuid4 order_date.2 in
  let customer_name := draws n fk_name customer_id.2 in
  let region := draws n (choice "" regions) py0 in
  let category := draws n (choice "" categories) region.2 in
  let sub_category := draws n fk_word customer_name.2 in
  let sales := draws n skewed_sales np0 in
  let quantity := draws n (randint 1 10) category.2 in
  let discounts := draws n discount quantity.2 in
  let profit := draws n skewed_profit sales.2 in
  let payment := draws n (choice "" payment_methods) discounts.2 in
  let segment := draws n (choice "" customer_segments) payment.2 in
  let shipping := draws n (choice "" shipping_types) segment.2 in
  let product_id := draws n fk_uuid4 sub_category.2 in
  let product := draws n product_name product_id.2 in
  {| c_Order_ID := order_id.1; c_Order_Date := order_date.1;
     c_Customer_ID := customer_id.1; c_Customer_Name := customer_name.1;
     c_Region := region.1; c_Category := category.1;
     c_Sub_Category := sub_category.1; c_Sales := sales.1;
     c_Quantity := quantity.1; c_Discount := discounts.1;
     c_Profit := profit.1; c_Payment_Method := payment.1;
     c_Customer_Segment := segment.1; c_Shipping_Type := shipping.1;
     c_Product_ID := product_id.1; c_Product_Name := product.1 |}.

Definition data : date → fk_rng → columns_of_data := data_n n_rows.

(** [pd.DataFrame(data)] with the [YearMonth] column added: row [i] takes
    entry [i] of every column. *)
Definition frame_row (d : columns_of_data) (i : nat) : row :=
  let order_date := nth i (c_Order_Date d) {| year := 0; month := 0; day := 0 |} in
  {| Order_ID := nth i (c_Order_ID d) "";
     Order_Date := order_date;
     Customer_ID := nth i (c_Customer_ID d) "";
     Customer_Name := nth i (c_Customer_Name d) "";
     Region := nth i (c_Region d) "";
     Category := nth i (c_Category d) "";
     Sub_Category := nth i (c_Sub_Category d) "";
     Sales := nth i (c_Sales d) 0%Q;
     Quantity := nth i (c_Quantity d) 0%Z;
     Discount := nth i (c_Discount d) 0%Q;
     Profit := nth i (c_Profit d) 0%Q;
     Payment_Method := nth i (c_Payment_Method d) "";
     Customer_Segment := nth i (c_Customer_Segment d) "";
     Shipping_Type := nth i (c_Shipping_Type d) "";
     Product_ID := nth i (c_Product_ID d) "";
     Product_Name := nth i (c_Product_Name d) "";
     YearMonth := to_period_M order_date |}.

Definition frame_of (d : columns_of_data) : DataFrame :=
  frame_row d <$> seq 0 (length (c_Order_ID d)).

(** The frame [df] of a run started on day [today] with Faker's
    generator in state [entropy]. *)
Definition df (today : date) (entropy : fk_rng) : DataFrame :=
  frame_of (data today entropy).

(** The fields of a row that are drawn from the two seeded sources. *)
Definition seeded_fields (r : row)
    : string * string * Q * Z * Q * Q * string * string * string :=
  (Region r, Category r, Sales r, Quantity r, Discount r, Profit r,
   Payment_Method r, Customer_Segment r, Shipping_Type r).
End generator.

(** A small instance of the three libraries, to run the generator on:
    every generator state is a counter. *)
Definition counter_uuid (g : nat) : string :=
  "id-" +:+ String (Ascii.ascii_of_nat (48 + g `mod` 10)) EmptyString.

Definition counter_sources : random_sources :=
  {| py_rng := nat; np_rng := nat; fk_rng := nat;
     py_seed := Z.to_nat; np_seed := Z.to_nat;
     py_randbelow := λ n g, (g `mod` n, S g);
     np_exponential := λ scale g, ((scale * inject_Z (Z.of_nat g) / 7)%Q, S g);
     np_normal := λ loc scale g,
       ((loc + scale * (inject_Z (Z.of_nat (g `mod` 5)) - 2))%Q, S g);
     fk_uuid4 := λ g, (counter_uuid g, S g);
     fk_date_between := λ today g,
       ({| year := year today - 1; month := 1 + Z.of_nat (g `mod` 12);
           day := 1 + Z.of_nat (g `mod` 28) |}, S g);
     fk_name := λ g, ("Ada Poe", S g);
     fk_word := λ g, ((if Nat.even g then "chair" else "lamp"), S g) |}.

(** ** The sums in binary64

    The sums as the libraries compute them, on IEEE 754 binary64 values:
    every addition rounds, so the order of the additions matters.
    [Series.sum()] is NumPy's [add.reduce], which sums pairwise; a group
    sum of [groupby(...).sum()] is pandas' compensated (Kahan) loop over
    the rows of the group. *)

Module F64.
(** The binary64 value of a positive integer; exact below [2^53]. *)
Fixpoint of_pos (p : positive) : float :=
  match p with
  | xH => 1%float
  | xO p' => (2 * of_pos p')%float
  | xI p' => (2 * of_pos p' + 1)%float
  end.

Definition of_Z (z : Z) : float :=
  match z with
  | Z0 => 0%float
  | Zpos p => of_pos p
  | Zneg p => (- of_pos p)%float
  end.

(** The binary64 value nearest to a rational whose numerator and
    denominator are below [2^53]: one correctly rounded division.  It is
    the value that a decimal literal such as [0.1], or [round(x, 2)], has
    in the program. *)
Definition of_Q (q : Q) : float := (of_Z (Qnum q) / of_pos (Qden q))%float.

(** A plain loop of additions. *)
Definition seq_sum (start : float) (a : list float) : float :=
  foldl PrimFloat.add start a.

(** The eight accumulators of NumPy's unrolled loop over whole blocks of
    eight values; what is left over is returned with them. *)
Fixpoint blocks8 (fuel : nat) (r : list float) (a : list float)
    : list float * list float :=
  match fuel with
  | 0 => (r, a)
  | S fuel' =>
      if decide (8 ≤ length a)
      then blocks8 fuel' (zip_with PrimFloat.add r (take 8 a)) (drop 8 a)
      else (r, a)
  end.

Definition tree8 (r : list float) : float :=
  let x i := nth i r 0%float in
  (((x 0%nat + x 1%nat) + (x 2%nat + x 3%nat)) +
   ((x 4%nat + x 5%nat) + (x 6%nat + x 7%nat)))%float.

(** NumPy's [pairwise_sum]: fewer than 8 values are added in a plain loop,
    up to 128 values with eight accumulators, more by splitting the array
    in two, at a multiple of eight.  [fuel] bounds the depth of the
    splitting; the length of the array is enough. *)
Fixpoint pairwise_sum (fuel : nat) (a : list float) : float :=
  let n := length a in
  if decide (n < 8) then seq_sum (- 0)%float a
  else if decide (n ≤ 128) then
    let b := blocks8 n (take 8 a) (drop 8 a) in
    seq_sum (tree8 b.1) b.2
  else
    match fuel with
    | 0 => seq_sum (- 0)%float a
    | S fuel' =>
        let n2 := n / 2 in
        let n2 := n2 - n2 `mod` 8 in
        (pairwise_sum fuel' (take n2 a) + pairwise_sum fuel' (drop n2 a))%float
    end.

(** [ndarray.sum()]: the reduction starts from 0. *)
Definition np_sum (a : list float) : float :=
  (0 + pairwise_sum (length a) a)%float.

(** One row of pandas' [group_sum]: Kahan summation, the compensation
    being reset when it is NaN. *)
Definition kahan_step (st : float * float) (val : float) : float * float :=
  let y := (val - st.2)%float in
  let t := (st.1 + y)%float in
  let c := (t - st.1 - y)%float in
  (t, if PrimFloat.is_nan c then 0%float else c).

Definition group_sum (a : list float) : float :=
  (foldl kahan_step (0%float, 0%float) a).1.

(** The binary64 value of a row count. *)
Definition of_nat (n : nat) : float := of_Z (Z.of_nat n).

(** [Series.mean()] is the sum divided by the count; the mean of a group
    is its compensated sum divided by its count. *)
Definition mean (a : list float) : float :=
  (np_sum a / of_nat (length a))%float.

Definition group_mean (a : list float) : float :=
  (group_sum a / of_nat (length a))%float.

Definition column_of (col : row → Q) (df : DataFrame) : list float :=
  (λ r, of_Q (col r)) <$> df.

(** The [total_sales] entry of [calculate_kpis]. *)
Definition total_sales (df : DataFrame) : float :=
  if decide (length df = 0) then 0%float else np_sum (column_of Sales df).

Definition float_ge (a b : string * float) : Prop :=
  PrimFloat.leb b.2 a.2 = true.

Global Instance float_ge_dec : RelDecision float_ge.
Proof. intros a b. unfold float_ge. apply _. Defined.

(** Item 2 in binary64. *)
Definition sales_by_region (df : DataFrame) : list (string * float) :=
  merge_sort float_ge
    ((λ g : string * DataFrame, (g.1, group_sum (column_of Sales g.2))) <$>
     groupby string_le Region df).
End F64.

(** ** Sidebar widgets

    [apply_filters] of the source first builds the option list of each
    multiselect widget from the frame and reads what the user picked; the
    picks are what [apply_filters] above takes as its [selection]. *)

(** [['All'] + sorted(df[col].unique().tolist())] *)
Definition options (col : row → string) (df : DataFrame) : list string :=
  "All" :: merge_sort string_le (remove_dups (col <$> df)).

(** The state of the sidebar: what each multiselect returns for its label,
    options and default, and whether a checkbox is ticked. *)
Record sidebar := {
  multiselect : string → list string → list string → list string;
  checkbox : string → bool
}.

Definition read_selection (ui : sidebar) (df : DataFrame) : selection :=
  {| selected_region := multiselect ui "Region:" (options Region df) ["All"];
     selected_category :=
       multiselect ui "Category:" (options Category df) ["All"];
     selected_payment :=
       multiselect ui "Payment Method:" (options Payment_Method df) ["All"];
     selected_segment :=
       multiselect ui "Customer Segment:" (options Customer_Segment df) ["All"] |}.

(** [apply_filters(df)] as the source has it, widgets included. *)
Definition apply_filters_sidebar (ui : sidebar) (df : DataFrame) : DataFrame :=
  apply_filters (read_selection ui df) df.

(** A sidebar nobody has touched: every widget returns its default. *)
Definition untouched : sidebar :=
  {| multiselect := λ _ _ default, default; checkbox := λ _, false |}.

(** ** The other grouped series of the pipeline *)

(** Year-month periods in chronological order. *)
Definition period_le (a b : Z * Z) : Prop :=
  (a.1 < b.1 ∨ (a.1 = b.1 ∧ a.2 ≤ b.2))%Z.

Global Instance period_le_dec : RelDecision period_le.
Proof. intros a b. unfold period_le. apply _. Defined.

(** [str] of a monthly period, as in [2024-05]. *)
Definition period_str (p : Z * Z) : string :=
  pretty p.1 +:+ "-" +:+ (if decide (p.2 < 10)%Z then "0" else "") +:+
  pretty p.2.

(** Item 1: [df.groupby('YearMonth')['Sales'].sum().reset_index()] with the
    period column turned into text. *)
Definition monthly_sales (df : DataFrame) : list (string * Q) :=
  (λ e : (Z * Z) * Q, (period_str e.1, e.2)) <$>
  (group_sum Sales <$> groupby period_le YearMonth df).

(** Item 6: [df.groupby('Customer Segment')['Profit'].sum()
    .sort_values(ascending=False).reset_index()] *)
Definition profit_by_segment (df : DataFrame) : list (string * Q) :=
  sort_values_desc (group_sum Profit <$> groupby string_le Customer_Segment df).

(** [Series.value_counts()]: one count per distinct value, largest count
    first.  Values with equal counts stay in value order here; pandas does
    not promise an order for them. *)
Definition count_ge (a b : string * nat) : Prop := b.2 ≤ a.2.

Global Instance count_ge_dec : RelDecision count_ge.
Proof. intros a b. unfold count_ge. apply _. Defined.

Definition value_counts (col : row → string) (df : DataFrame)
    : list (string * nat) :=
  merge_sort count_ge (group_size <$> groupby string_le col df).

(** Item 7: [df['Payment Method'].value_counts().reset_index()] *)
Definition payment_counts (df : DataFrame) : list (string * nat) :=
  value_counts Payment_Method df.

(** [.mean()] on the groups of one column. *)
Definition group_mean {K} (col : row → Q) (g : K * DataFrame) : K * number :=
  (g.1, mean (col <$> g.2)).

(** Descending order on float results; NaN sorts last. *)
Definition number_ge (a b : number) : Prop :=
  match a, b with
  | Num x, Num y => (y <= x)%Q
  | _, NaN => True
  | NaN, Num _ => False
  end.

Global Instance number_ge_dec : RelDecision number_ge.
Proof. intros [x|] [y|]; simpl; apply _. Defined.

(** Item 9: [df.groupby('Shipping Type')['Profit'].mean()
    .sort_values(ascending=False).reset_index()] *)
Definition mean_ge (a b : string * number) : Prop := number_ge a.2 b.2.

Global Instance mean_ge_dec : RelDecision mean_ge.
Proof. intros a b. unfold mean_ge. apply _. Defined.

Definition avg_profit_by_shipping (df : DataFrame) : list (string * number) :=
  merge_sort mean_ge (group_mean Profit <$> groupby string_le Shipping_Type df).

(** ** The page

    What one run of [main] puts on the page, in order.  Texts and number
    formats are the renderer's; an element carries the values it shows. *)

Inductive figure :=
  | Line (series : list (string * Q))
  | Bar (series : list (string * Q))
  | BarMean (series : list (string * number))
  | Box (points : list (string * Q))
  | Histogram (values : list Z)
  | Scatter (points : list (Q * Q))
  | Pie (counts : list (string * nat))
  | StackedBar (counts : grid).

Inductive element :=
  | Markdown (text : string)
  | Success (shown total : nat)
  | Metric (label : string) (value : number)
  | MetricCount (label : string) (value : nat)
  | DownloadButton (label : string) (rows : DataFrame)
  | DataFrameView (rows : DataFrame)
  | InfoText (text : string)
  | Warning (text : string)
  | InfoCount (label : string) (value : nat)
  | InfoMemory (rows : DataFrame)
  | Plot (fig : figure).

Definition display_kpis (k : kpis) : list element :=
  [ Markdown "Key Performance Indicators";
    Metric "Total Sales" (Num (total_sales k));
    Metric "Avg Profit" (average_profit k);
    Metric "Avg Quantity" (average_quantity k);
    MetricCount "Total Orders" (total_orders k) ].

Definition create_visualizations (df : DataFrame) : list element :=
  [ Markdown "---"; Markdown "Data Visualizations";
    Plot (Line (monthly_sales df));
    Plot (Bar (sales_by_region df));
    Plot (Box ((λ r, (Category r, Profit r)) <$> df));
    Plot (Histogram (Quantity <$> df));
    Plot (Scatter ((λ r, (Sales r, Profit r)) <$> df));
    Plot (Bar (profit_by_segment df));
    Plot (Pie (payment_counts df));
    Plot (StackedBar (order_counts df));
    Plot (BarMean (avg_profit_by_shipping df));
    Plot (Box ((λ r, (Category r, Sales r)) <$> df)) ].

(** The number of columns of the frame: the sixteen generated ones and
    [YearMonth]. *)
Definition n_columns : nat := 17.

Definition main (ui : sidebar) (df : DataFrame) : list element :=
  let filtered_df := apply_filters_sidebar ui df in
  let kpis := calculate_kpis filtered_df in
  [ Markdown "Sales Analytics Dashboard";
    Success (length filtered_df) (length df) ] ++
  display_kpis kpis ++
  [ Markdown "---" ] ++
  (if decide (0 < length filtered_df)
   then [ DownloadButton "Download Filtered Data" filtered_df ] else []) ++
  [ DownloadButton "Download Full Dataset" df ] ++
  (if checkbox ui "Show Raw Data" then
     Markdown "Raw Data Preview" ::
     (if decide (0 < length filtered_df) then [ DataFrameView filtered_df ]
      else [ InfoText "No data to display with current filters" ])
   else []) ++
  (if decide (0 < length filtered_df) then create_visualizations filtered_df
   else [ Warning "No data available with current filters." ]) ++
  [ Markdown "---"; Markdown "Dataset Information";
    InfoCount "Total Records" (length filtered_df);
    InfoCount "Total Columns" n_columns;
    InfoMemory filtered_df;
    Markdown "---"; Markdown "Sales Analytics Dashboard v1.0" ].

(** ** Sample rows *)

Definition mk_row (id region category payment segment shipping : string)
    (sales profit : Q) (quantity : Z) : row :=
  {| Order_ID := id;
     Order_Date := {| year := 2024; month := 5; day := 17 |};
     Customer_ID := "c-" +:+ id; Customer_Name := "Ada Poe";
     Region := region; Category := category; Sub_Category := "thing";
     Sales := sales; Quantity := quantity; Discount := 0;
     Profit := profit; Payment_Method := payment;
     Customer_Segment := segment; Shipping_Type := shipping;
     Product_ID := "p-" +:+ id; Product_Name := "Blue Chair";
     YearMonth := (2024%Z, 5%Z) |}.

Definition r_north1 : row :=
  mk_row "o1" "North" "Books" "PayPal" "Consumer" "Standard Class" 10 3 2.
Definition r_north2 : row :=
  mk_row "o2" "North" "Toys" "Credit Card" "Corporate" "Same Day" 20 0 5.
Definition r_south : row :=
  mk_row "o3" "South" "Books" "PayPal" "Consumer" "First Class" 5 1 1.

Definition sample_df : DataFrame := [r_north1; r_north2; r_south].


(** ** Filter engine: properties *)

Section filter_engine.
Implicit Types (df : DataFrame) (sel : selection) (r : row).
Implicit Types (col : row → string) (selected : list string).

Lemma filter_all_pass (P : row → Prop) `{!∀ r, Decision (P r)} df :
  (∀ r, P r) → filter P df = df.
Proof.
  intros HP. induction df as [|r df IH]; [done|].
  by rewrite filter_cons_True, IH.
Qed.

Lemma filter_step_allows col selected df :
  filter_step col selected df = filter (λ r, allows selected (col r)) df.
Proof.
  unfold filter_step, isin_rows, allows.
  case_decide as Hall.
  - apply list_filter_iff. intros r. split; [by right|].
    by intros [?|?].
  - symmetry. apply filter_all_pass. intros r. left.
    by destruct (decide ("All" ∈ selected)).
Qed.

Lemma apply_filters_passes sel df :
  apply_filters sel df = filter (passes sel) df.
Proof.
  unfold apply_filters. rewrite !filter_step_allows, !list_filter_filter.
  apply list_filter_iff. intros r. unfold passes. tauto.
Qed.

Lemma filter_step_all col selected df :
  "All" ∈ selected → filter_step col selected df = df.
Proof. intros Hall. unfold filter_step. by rewrite decide_False by tauto. Qed.

Lemma filter_step_empty col df : filter_step col [] df = [].
Proof.
  unfold filter_step, isin_rows.
  rewrite decide_True by apply not_elem_of_nil.
  induction df as [|r df IH]; [done|].
  rewrite filter_cons_False; [done|]. apply not_elem_of_nil.
Qed.

Lemma passes_dimensions sel r :
  passes sel r ↔ ∀ d, allows (chosen d sel) (column d r).
Proof.
  unfold passes. split.
  - intros (?&?&?&?) []; done.
  - intros H. repeat split;
      [apply (H DRegion)|apply (H DCategory)|apply (H DPayment)|apply (H DSegment)].
Qed.

Lemma chosen_choose_eq d values sel : chosen d (choose d values sel) = values.
Proof. by destruct d. Qed.

Lemma chosen_choose_ne d d' values sel :
  d' ≠ d → chosen d' (choose d values sel) = chosen d' sel.
Proof. by destruct d, d'. Qed.

Lemma elem_of_apply_filters sel df r :
  r ∈ apply_filters sel df ↔ r ∈ df ∧ ∀ d, allows (chosen d sel) (column d r).
Proof.
  rewrite apply_filters_passes, list_elem_of_filter, passes_dimensions. tauto.
Qed.

(** C6: whatever is selected, the filtered frame is a sub-sequence of the
    input frame (rows are only dropped, never added or reordered), so it
    has at most as many rows. *)
Theorem apply_filters_subset sel df :
  apply_filters sel df `sublist_of` df ∧
  (∀ r, r ∈ apply_filters sel df → r ∈ df) ∧
  length (apply_filters sel df) ≤ length df.
Proof.
  rewrite apply_filters_passes. split_and!.
  - apply sublist_filter.
  - intros r. rewrite list_elem_of_filter. tauto.
  - apply length_filter.
Qed.

(** C7: filtering an already filtered frame with the same selection gives
    the same frame. *)
Theorem apply_filters_idempotent sel df :
  apply_filters sel (apply_filters sel df) = apply_filters sel df.
Proof.
  rewrite !apply_filters_passes. by apply list_filter_filter_l.
Qed.

(** C10: in every dimension, a selection that contains ["All"] imposes no
    constraint, whatever else is selected next to it; a selection without
    ["All"] keeps exactly the rows whose value is one of the selected
    values. *)
Theorem apply_filters_all_sentinel d sel df :
  ("All" ∈ chosen d sel →
     apply_filters sel df = apply_filters (choose d ["All"] sel) df) ∧
  ("All" ∉ chosen d sel →
     apply_filters sel df =
     filter (λ r, column d r ∈ chosen d sel)
       (apply_filters (choose d ["All"] sel) df)).
Proof.
  rewrite !apply_filters_passes. split; intros Hall.
  - apply list_filter_iff. intros r. rewrite !passes_dimensions.
    split; intros H d'; specialize (H d'); destruct (decide (d' = d)) as [->|].
    + rewrite chosen_choose_eq. left. set_solver.
    + by rewrite chosen_choose_ne.
    + by left.
    + by rewrite chosen_choose_ne in H.
  - rewrite list_filter_filter. apply list_filter_iff. intros r.
    rewrite !passes_dimensions. split.
    + intros H. split; [by destruct (H d)|]. intros d'.
      destruct (decide (d' = d)) as [->|].
      * rewrite chosen_choose_eq. left. set_solver.
      * rewrite chosen_choose_ne by done. apply H.
    + intros [Hd H] d'. destruct (decide (d' = d)) as [->|].
      * by right.
      * specialize (H d'). by rewrite chosen_choose_ne in H.
Qed.

(** C1, as the code has it: in every dimension an empty selection lets no
    row through, so the filtered frame is empty; the ["All"] sentinel
    leaves the rows to the other three dimensions. *)
Theorem apply_filters_empty_selection d sel df :
  apply_filters (choose d [] sel) df = [] ∧
  (∀ r, r ∈ apply_filters (choose d ["All"] sel) df ↔
        r ∈ df ∧ ∀ d', d' ≠ d → allows (chosen d' sel) (column d' r)).
Proof.
  split.
  - apply elem_of_nil_inv. intros r.
    rewrite elem_of_apply_filters. intros [_ H]. specialize (H d).
    rewrite chosen_choose_eq in H. destruct H as [H|H]; by apply not_elem_of_nil in H.
  - intros r. rewrite elem_of_apply_filters. split; intros [Hr H]; split; try done.
    + intros d' Hne. specialize (H d'). by rewrite chosen_choose_ne in H.
    + intros d'. destruct (decide (d' = d)) as [->|].
      * rewrite chosen_choose_eq. left. set_solver.
      * rewrite chosen_choose_ne by done. by apply H.
Qed.

(** C8, as the code has it: with ["All"] selected in all four dimensions
    the frame comes back unchanged, same rows in the same order; with
    nothing selected in any dimension the result is the empty frame. *)
Theorem apply_filters_all_selected df :
  apply_filters all_selected df = df ∧
  apply_filters nothing_selected df = [].
Proof.
  split.
  - unfold apply_filters. simpl. rewrite !filter_step_all; set_solver.
  - unfold apply_filters. simpl. by rewrite !filter_step_empty.
Qed.
End filter_engine.

(** ** Metrics calculator and grouped sums: properties *)

Section sums.
Implicit Types (df : DataFrame) (col : list Q).





Lemma groupby_keys {K} `{EqDecision K} (le : relation K) `{!RelDecision le}
    (key : row → K) df :
  (groupby le key df).*1 ≡ₚ remove_dups (key <$> df).
Proof.
  unfold groupby. rewrite <-list_fmap_compose.
  rewrite (list_fmap_ext _ id) by done.
  rewrite list_fmap_id. apply merge_sort_Permutation.
Qed.


(** C4: on the empty frame all four KPIs are 0, not NaN; no frame gives
    a NaN average; and on a frame with at least one row the order count
    is the number of rows. *)
Theorem calculate_kpis_empty_and_count :
  calculate_kpis [] =
    {| total_sales := 0; average_profit := Num 0; average_quantity := Num 0;
       total_orders := 0 |} ∧
  (∀ df, average_profit (calculate_kpis df) ≠ NaN ∧
         average_quantity (calculate_kpis df) ≠ NaN) ∧
  (∀ df, df ≠ [] → total_orders (calculate_kpis df) = length df).
Proof.
  split_and!; [done| |].
  - intros [|r df]; [done|]. by unfold calculate_kpis.
  - intros [|r df] ?; done.
Qed.



End sums.

(** ** Item 8, the segment by shipping-type grid: properties *)

Section order_counts.
Implicit Types (df : DataFrame) (g : grid) (s t : string).

Lemma groupby_fst {K} `{EqDecision K} (le : relation K) `{!RelDecision le}
    (key : row → K) df :
  (groupby le key df).*1 = merge_sort le (remove_dups (key <$> df)).
Proof.
  unfold groupby. rewrite <-list_fmap_compose.
  rewrite (list_fmap_ext _ id) by done. apply list_fmap_id.
Qed.

Lemma size_series_keys df :
  (group_size <$> groupby pair_le pair_key df).*1 ≡ₚ
  remove_dups (pair_key <$> df).
Proof.
  rewrite <-list_fmap_compose.
  rewrite (list_fmap_ext _ fst) by done.
  rewrite groupby_fst. apply merge_sort_Permutation.
Qed.

Lemma size_series_lookup df s t :
  (list_to_map (group_size <$> groupby pair_le pair_key df)
     : gmap (string * string) nat) !! (s, t) =
  if decide ((s, t) ∈ pair_key <$> df) then Some (count_pair df s t)
  else None.
Proof.
  pose proof (size_series_keys df) as Hkeys.
  case_decide as Hin.
  - apply elem_of_list_to_map_1.
    + rewrite Hkeys. apply NoDup_remove_dups.
    + unfold groupby. rewrite <-list_fmap_compose.
      apply (list_elem_of_fmap_2' _ _ (s, t)); [|done].
      rewrite merge_sort_Permutation. by apply elem_of_remove_dups.
  - apply not_elem_of_list_to_map_1. rewrite Hkeys.
    by rewrite elem_of_remove_dups.
Qed.

Lemma count_pair_absent df s t :
  (s, t) ∉ pair_key <$> df → count_pair df s t = 0.
Proof.
  intros Hnot. unfold count_pair.
  rewrite (elem_of_nil_inv (filter (λ r, pair_key r = (s, t)) df)); [done|].
  intros r [Hr ?]%list_elem_of_filter. apply Hnot.
  by apply (list_elem_of_fmap_2' _ _ r).
Qed.

Lemma unstack_index_elem (fill : nat) (ser : list ((string * string) * nat)) s :
  s ∈ index (unstack fill ser) ↔ ∃ t, (s, t) ∈ ser.*1.
Proof.
  simpl. rewrite merge_sort_Permutation, elem_of_remove_dups, list_elem_of_fmap.
  split.
  - intros ([[s' t] n] & -> & He). exists t.
    by apply (list_elem_of_fmap_2' _ _ (s', t, n)).
  - intros (t & ([[s' t'] n] & [= -> ->] & He)%list_elem_of_fmap).
    by exists (s', t', n).
Qed.

Lemma unstack_columns_elem (fill : nat) (ser : list ((string * string) * nat)) t :
  t ∈ columns (unstack fill ser) ↔ ∃ s, (s, t) ∈ ser.*1.
Proof.
  simpl. rewrite merge_sort_Permutation, elem_of_remove_dups, list_elem_of_fmap.
  split.
  - intros ([[s t'] n] & -> & He). exists s.
    by apply (list_elem_of_fmap_2' _ _ (s, t', n)).
  - intros (s & ([[s' t'] n] & [= -> ->] & He)%list_elem_of_fmap).
    by exists (s', t', n).
Qed.

Lemma order_counts_index_elem df s :
  s ∈ index (order_counts df) ↔ s ∈ Customer_Segment <$> df.
Proof.
  unfold order_counts. rewrite unstack_index_elem.
  setoid_rewrite size_series_keys. setoid_rewrite elem_of_remove_dups.
  rewrite list_elem_of_fmap. split.
  - intros (t & (r & [= -> ->] & Hr)%list_elem_of_fmap). by exists r.
  - intros (r & -> & Hr). exists (Shipping_Type r).
    by apply (list_elem_of_fmap_2' _ _ r).
Qed.

Lemma order_counts_columns_elem df t :
  t ∈ columns (order_counts df) ↔ t ∈ Shipping_Type <$> df.
Proof.
  unfold order_counts. rewrite unstack_columns_elem.
  setoid_rewrite size_series_keys. setoid_rewrite elem_of_remove_dups.
  rewrite list_elem_of_fmap. split.
  - intros (s & (r & [= -> ->] & Hr)%list_elem_of_fmap). by exists r.
  - intros (r & -> & Hr). exists (Customer_Segment r).
    by apply (list_elem_of_fmap_2' _ _ r).
Qed.

Lemma unstack_NoDup (fill : nat) (ser : list ((string * string) * nat)) :
  NoDup (index (unstack fill ser)) ∧ NoDup (columns (unstack fill ser)).
Proof.
  simpl. rewrite !merge_sort_Permutation. split; apply NoDup_remove_dups.
Qed.

Lemma unstack_n_cells (fill : nat) (ser : list ((string * string) * nat)) :
  n_cells (unstack fill ser) =
  length (index (unstack fill ser)) * length (columns (unstack fill ser)).
Proof.
  unfold n_cells. simpl.
  induction (merge_sort string_le (remove_dups ((λ e, e.1.1) <$> ser)))
    as [|i idx IH]; [done|].
  rewrite fmap_cons. simpl. rewrite length_app, length_fmap, IH. done.
Qed.

Lemma find_label (labels : list string) s :
  s ∈ labels → ∃ i, list_find (λ x, x = s) labels = Some (i, s) ∧
                    labels !! i = Some s.
Proof.
  intros Hs. destruct (list_find_elem_of (λ x, x = s) labels s Hs eq_refl)
    as [[i x] Hfind].
  pose proof Hfind as (Hi & -> & _)%list_find_Some. by exists i.
Qed.

Lemma unstack_cell (fill : nat) (ser : list ((string * string) * nat)) s t :
  s ∈ index (unstack fill ser) → t ∈ columns (unstack fill ser) →
  cell (unstack fill ser) s t =
  Some (default fill ((list_to_map ser : gmap (string * string) nat) !! (s, t))).
Proof.
  intros (i & Hfi & Hi)%find_label (j & Hfj & Hj)%find_label.
  unfold cell. rewrite Hfi, Hfj. simpl in *.
  rewrite list_lookup_fmap, Hi. simpl.
  by rewrite list_lookup_fmap, Hj.
Qed.

Lemma cell_no_label g s t :
  s ∉ index g ∨ t ∉ columns g → cell g s t = None.
Proof.
  assert (Hnone : ∀ (labels : list string) x,
    x ∉ labels → list_find (λ y, y = x) labels = None).
  { intros labels x Hx. apply list_find_None, Forall_forall.
    intros y Hy ->. done. }
  unfold cell. intros [Hs|Ht].
  - by rewrite (Hnone _ _ Hs).
  - rewrite (Hnone _ _ Ht). by destruct (list_find _ (index g)).
Qed.

(** C2, as the code has it: the grid of item 8 has one line per segment
    that occurs in the frame and one column per shipping type that occurs
    in the frame, each once, so its number of cells is the product of the
    two numbers of occurring values; the cell of an occurring segment and
    an occurring shipping type holds the number of rows with that pair,
    which is an explicit 0 when no row has it; a segment or shipping type
    without any row has no cell. *)
Theorem order_counts_grid df :
  (∀ s, s ∈ index (order_counts df) ↔ s ∈ Customer_Segment <$> df) ∧
  (∀ t, t ∈ columns (order_counts df) ↔ t ∈ Shipping_Type <$> df) ∧
  NoDup (index (order_counts df)) ∧ NoDup (columns (order_counts df)) ∧
  n_cells (order_counts df) =
    length (remove_dups (Customer_Segment <$> df)) *
    length (remove_dups (Shipping_Type <$> df)) ∧
  (∀ s t, s ∈ Customer_Segment <$> df → t ∈ Shipping_Type <$> df →
     cell (order_counts df) s t = Some (count_pair df s t)) ∧
  (∀ s t, s ∈ Customer_Segment <$> df → t ∈ Shipping_Type <$> df →
     (s, t) ∉ pair_key <$> df → cell (order_counts df) s t = Some 0) ∧
  (∀ s t, s ∉ Customer_Segment <$> df ∨ t ∉ Shipping_Type <$> df →
     cell (order_counts df) s t = None).
Proof.
  assert (Hcell : ∀ s t, s ∈ Customer_Segment <$> df →
    t ∈ Shipping_Type <$> df →
    cell (order_counts df) s t = Some (count_pair df s t)).
  { intros s t Hs%order_counts_index_elem Ht%order_counts_columns_elem.
    unfold order_counts in *. rewrite unstack_cell by done.
    rewrite size_series_lookup. case_decide as Hin; [done|].
    simpl. by rewrite count_pair_absent. }
  destruct (unstack_NoDup 0 (group_size <$> groupby pair_le pair_key df))
    as [Hndi Hndc].
  split_and!.
  - apply order_counts_index_elem.
  - apply order_counts_columns_elem.
  - exact Hndi.
  - exact Hndc.
  - unfold order_counts at 1. rewrite unstack_n_cells. f_equal.
    + apply Permutation_length, NoDup_Permutation;
        [done|apply NoDup_remove_dups|].
      intros s. rewrite elem_of_remove_dups. apply order_counts_index_elem.
    + apply Permutation_length, NoDup_Permutation;
        [done|apply NoDup_remove_dups|].
      intros t. rewrite elem_of_remove_dups. apply order_counts_columns_elem.
  - exact Hcell.
  - intros s t Hs Ht Hnot. rewrite Hcell by done.
    by rewrite count_pair_absent.
  - intros s t Hst. apply cell_no_label.
    rewrite order_counts_index_elem, order_counts_columns_elem. done.
Qed.
End order_counts.

(** ** The filter engine never writes to its input frame *)

Section frame_objects.
Implicit Types (σ : gmap nat (list row)) (rows : list row).
Implicit Types (col : row → string) (selected : list string).

Lemma new_frame_spec rows σ :
  ∃ l, Obj.new_frame rows σ = Some (l, <[l := rows]> σ) ∧ σ !! l = None.
Proof.
  exists (fresh (dom σ)). split; [done|].
  apply not_elem_of_dom, is_fresh.
Qed.

Lemma prog_bind_Some {A B} (m : Obj.prog A) (k : A → Obj.prog B) σ x σ' :
  m σ = Some (x, σ') → (m ≫= k) σ = k x σ'.
Proof. intros H. unfold mbind, Obj.prog_bind. by rewrite H. Qed.

(** One step keeps every frame of the store and leaves the current frame
    in a frame that is either the one it got or a new one. *)
Lemma filter_step_obj col selected l σ rows :
  σ !! l = Some rows →
  ∃ l' σ', Obj.filter_step col selected l σ = Some (l', σ') ∧
           σ ⊆ σ' ∧ (l' = l ∨ σ !! l' = None) ∧
           σ' !! l' = Some (filter_step col selected rows).
Proof.
  intros Hl. unfold Obj.filter_step, filter_step. case_decide.
  - destruct (new_frame_spec (isin_rows col selected rows) σ)
      as (l' & Hnew & Hfresh).
    exists l', (<[l' := isin_rows col selected rows]> σ). split_and!.
    + unfold Obj.getitem_isin.
      rewrite (prog_bind_Some _ _ σ rows σ); [done|].
      unfold Obj.read. by rewrite Hl.
    + by apply insert_subseteq.
    + by right.
    + apply lookup_insert_eq.
  - exists l, σ. split_and!; [done|done|by left|done].
Qed.

Lemma copy_obj l σ rows :
  σ !! l = Some rows →
  ∃ l', Obj.copy l σ = Some (l', <[l' := rows]> σ) ∧ σ !! l' = None.
Proof.
  intros Hl. destruct (new_frame_spec rows σ) as (l' & Hnew & Hfresh).
  exists l'. split; [|done]. unfold Obj.copy.
  rewrite (prog_bind_Some _ _ σ rows σ); [done|].
  unfold Obj.read. by rewrite Hl.
Qed.

(** C9: run on a store that holds the input frame, the filter engine
    returns the address of a frame that did not exist before, holding
    the filtered rows; the input frame and every other frame of the
    store are as they were. *)
Theorem apply_filters_no_mutation sel σ df rows :
  σ !! df = Some rows →
  ∃ out σ', Obj.apply_filters sel df σ = Some (out, σ') ∧
            out ≠ df ∧ σ !! out = None ∧
            σ' !! out = Some (apply_filters sel rows) ∧
            σ' !! df = Some rows ∧
            (∀ l rows', σ !! l = Some rows' → σ' !! l = Some rows').
Proof.
  intros Hdf.
  destruct (copy_obj df σ rows Hdf) as (l0 & Hcopy & Hfresh0).
  set (σ0 := <[l0 := rows]> σ) in *.
  assert (Hsub0 : σ ⊆ σ0) by by apply insert_subseteq.
  assert (Hl0 : σ0 !! l0 = Some rows) by apply lookup_insert_eq.
  destruct (filter_step_obj Region (selected_region sel) l0 σ0 rows Hl0)
    as (l1 & σ1 & Hs1 & Hsub1 & Hf1 & Hl1).
  destruct (filter_step_obj Category (selected_category sel) l1 σ1 _ Hl1)
    as (l2 & σ2 & Hs2 & Hsub2 & Hf2 & Hl2).
  destruct (filter_step_obj Payment_Method (selected_payment sel) l2 σ2 _ Hl2)
    as (l3 & σ3 & Hs3 & Hsub3 & Hf3 & Hl3).
  destruct (filter_step_obj Customer_Segment (selected_segment sel) l3 σ3 _ Hl3)
    as (l4 & σ4 & Hs4 & Hsub4 & Hf4 & Hl4).
  assert (Hn1 : σ !! l1 = None).
  { destruct Hf1 as [->|?]; [done|]. by eapply lookup_weaken_None. }
  assert (Hn2 : σ !! l2 = None).
  { destruct Hf2 as [->|?]; [done|].
    eapply lookup_weaken_None; [done|]. by etrans. }
  assert (Hn3 : σ !! l3 = None).
  { destruct Hf3 as [->|?]; [done|].
    eapply lookup_weaken_None; [done|]. etrans; [|done]. by etrans. }
  assert (Hn4 : σ !! l4 = None).
  { destruct Hf4 as [->|?]; [done|].
    eapply lookup_weaken_None; [done|].
    etrans; [|done]. etrans; [|done]. by etrans. }
  assert (Hsub : σ ⊆ σ4).
  { etrans; [|done]. etrans; [|done]. etrans; [|done]. by etrans. }
  exists l4, σ4. split_and!.
  - unfold Obj.apply_filters.
    rewrite (prog_bind_Some _ _ _ _ _ Hcopy).
    rewrite (prog_bind_Some _ _ _ _ _ Hs1).
    rewrite (prog_bind_Some _ _ _ _ _ Hs2).
    rewrite (prog_bind_Some _ _ _ _ _ Hs3).
    by rewrite (prog_bind_Some _ _ _ _ _ Hs4).
  - intros ->. congruence.
  - done.
  - done.
  - by eapply lookup_weaken.
  - intros l rows' Hl. by eapply lookup_weaken.
Qed.
End frame_objects.

(** ** Record generator: what a run depends on *)

Section generator_runs.
Context {L : random_sources}.
Implicit Types (today : date) (entropy : fk_rng) (n : nat).

Lemma draws_length {S A} n (draw : S → A * S) (g : S) :
  length (draws n draw g).1 = n.
Proof.
  revert g. induction n as [|n IH]; intros g; [done|].
  simpl. by rewrite IH.
Qed.

Lemma data_n_length n today entropy :
  length (c_Order_ID (data_n n today entropy)) = n.
Proof. unfold data_n. simpl. apply draws_length. Qed.

(** The fields drawn from [random] and [np.random] are the same in
    every run, whatever the day and the state of Faker's generator. *)
Lemma seeded_fields_data_n n today today' entropy entropy' :
  seeded_fields <$> frame_of (data_n n today entropy) =
  seeded_fields <$> frame_of (data_n n today' entropy').
Proof.
  unfold frame_of. rewrite !data_n_length, <-!list_fmap_compose.
  apply list_fmap_ext. intros _ i _. reflexivity.
Qed.

Lemma seeded_fields_reproducible today today' entropy entropy' :
  seeded_fields <$> df today entropy = seeded_fields <$> df today' entropy'.
Proof. apply seeded_fields_data_n. Qed.

(** The first order id of a run is the first draw of Faker's generator. *)
Lemma first_order_id n today entropy :
  head (Order_ID <$> frame_of (data_n (S n) today entropy)) =
  Some (fk_uuid4 entropy).1.
Proof.
  unfold frame_of. rewrite data_n_length. reflexivity.
Qed.

Lemma frame_depends_on_faker_state n today entropy entropy' :
  (fk_uuid4 entropy).1 ≠ (fk_uuid4 entropy').1 →
  frame_of (data_n (S n) today entropy) ≠
  frame_of (data_n (S n) today entropy').
Proof.
  intros Hne Heq. apply Hne.
  pose proof (first_order_id n today entropy) as H1.
  pose proof (first_order_id n today entropy') as H2.
  rewrite Heq in H1. congruence.
Qed.

Lemma n_rows_positive : ∃ m, n_rows = S m.
Proof.
  exists (Z.to_nat 9999). unfold n_rows.
  change 10000%Z with (Z.succ 9999). apply Z2Nat.inj_succ. lia.
Qed.

(** C3: the record set of a run is a function of the state in which
    Faker's generator starts, which no seed of the program fixes: two
    runs whose Faker generators start in states that give different
    first identifiers produce different record sets, with the same seed
    42 for [random] and [np.random] and on the same day. *)
Theorem df_depends_on_faker_state today entropy entropy' :
  (fk_uuid4 entropy).1 ≠ (fk_uuid4 entropy').1 →
  df today entropy ≠ df today entropy'.
Proof.
  destruct n_rows_positive as [m Hm].
  unfold df, data. rewrite Hm. apply frame_depends_on_faker_state.
Qed.
End generator_runs.

(** ** Filter engine: how selections and frames combine *)

Section filter_algebra.
Implicit Types (df : DataFrame) (sel : selection) (r : row) (d : dimension).

Lemma filter_ext_elem (P Q : row → Prop) `{!∀ r, Decision (P r)}
    `{!∀ r, Decision (Q r)} df :
  (∀ r, r ∈ df → P r ↔ Q r) → filter P df = filter Q df.
Proof.
  induction df as [|r df IH]; intros HPQ; [done|].
  rewrite !filter_cons, IH by (intros; apply HPQ; by right).
  destruct (decide (P r)) as [HP|HP], (decide (Q r)) as [HQ|HQ]; try done.
  - destruct HQ. apply HPQ; [left|done].
  - destruct HP. apply HPQ; [left|done].
Qed.

(** X1: the filter works row by row: filtering two frames put one after
    the other gives the two filtered frames put one after the other. *)
Theorem apply_filters_app sel df1 df2 :
  apply_filters sel (df1 ++ df2) = apply_filters sel df1 ++ apply_filters sel df2.
Proof. rewrite !apply_filters_passes. apply filter_app. Qed.

(** X2: two selections applied one after the other give the same frame in
    either order, namely the rows that pass both. *)
Theorem apply_filters_comm sel1 sel2 df :
  apply_filters sel1 (apply_filters sel2 df) =
  apply_filters sel2 (apply_filters sel1 df) ∧
  apply_filters sel1 (apply_filters sel2 df) =
  filter (λ r, passes sel1 r ∧ passes sel2 r) df.
Proof.
  rewrite !apply_filters_passes, !list_filter_filter. split; [|done].
  apply list_filter_iff. tauto.
Qed.

(** X3: only the set of picked values matters: two sidebar states that
    pick the same values in every dimension, in any order and with any
    repetition, give the same filtered frame. *)
Theorem apply_filters_selection_set sel1 sel2 df :
  (∀ d v, v ∈ chosen d sel1 ↔ v ∈ chosen d sel2) →
  apply_filters sel1 df = apply_filters sel2 df.
Proof.
  intros Hsame. rewrite !apply_filters_passes. apply list_filter_iff.
  intros r. rewrite !passes_dimensions. unfold allows.
  split; intros H d; specialize (H d).
  - by rewrite <-!Hsame.
  - by rewrite !Hsame.
Qed.

(** X4: a selection that lets through at most what another one lets
    through can be applied to the other one's result: narrowing a filter
    needs only the rows that the wider filter kept. *)
Theorem apply_filters_narrow sel1 sel2 df :
  (∀ d v, allows (chosen d sel1) v → allows (chosen d sel2) v) →
  apply_filters sel1 (apply_filters sel2 df) = apply_filters sel1 df ∧
  apply_filters sel1 df `sublist_of` apply_filters sel2 df.
Proof.
  intros Hnarrow.
  assert (Heq : apply_filters sel1 (apply_filters sel2 df) = apply_filters sel1 df).
  { rewrite !apply_filters_passes. apply list_filter_filter_l.
    intros r. rewrite !passes_dimensions. intros H d. by apply Hnarrow. }
  split; [done|]. rewrite <-Heq, (apply_filters_passes sel1).
  apply sublist_filter.
Qed.
End filter_algebra.

(** ** Sidebar options *)

Global Instance string_le_total : Total string_le.
Proof. intros a b. apply String.leb_total. Qed.

Section sidebar_options.
Implicit Types (df : DataFrame) (sel : selection) (r : row) (d : dimension).
Implicit Types (col : row → string).

Lemma elem_of_options col df v :
  v ∈ options col df ↔ v = "All" ∨ v ∈ col <$> df.
Proof.
  unfold options.
  by rewrite elem_of_cons, merge_sort_Permutation, elem_of_remove_dups.
Qed.

Lemma elem_of_tail_options col df v :
  v ∈ tail (options col df) ↔ ∃ r, r ∈ df ∧ col r = v.
Proof.
  unfold options. simpl.
  rewrite merge_sort_Permutation, elem_of_remove_dups, list_elem_of_fmap.
  split.
  - intros (r & -> & Hr). by exists r.
  - intros (r & Hr & <-). by exists r.
Qed.

(** X5: the option list of a widget starts with ["All"]; after it come
    the values of the column, each once, in ascending order; so every row
    of the frame finds its value among the options, and every option after
    ["All"] is the value of some row. *)
Theorem options_spec col df :
  head (options col df) = Some "All" ∧
  NoDup (tail (options col df)) ∧
  Sorted string_le (tail (options col df)) ∧
  (∀ v, v ∈ tail (options col df) ↔ ∃ r, r ∈ df ∧ col r = v).
Proof.
  unfold options. simpl. split_and!; [done| | |].
  - rewrite merge_sort_Permutation. apply NoDup_remove_dups.
  - apply (Sorted_merge_sort string_le).
  - apply elem_of_tail_options.
Qed.

(** X6: picking every value that a widget offers after ["All"] filters
    nothing in that dimension: the result is the one for ["All"]. *)
Theorem apply_filters_every_option d sel df :
  apply_filters (choose d (tail (options (column d) df)) sel) df =
  apply_filters (choose d ["All"] sel) df.
Proof.
  rewrite !apply_filters_passes. apply filter_ext_elem. intros r Hr.
  rewrite !passes_dimensions.
  assert (Hval : column d r ∈ tail (options (column d) df)).
  { apply elem_of_tail_options. by exists r. }
  split; intros H d'; specialize (H d');
    destruct (decide (d' = d)) as [->|Hne];
    rewrite ?chosen_choose_eq, ?chosen_choose_ne in * by done; try done.
  - left. apply list_elem_of_here.
  - by right.
Qed.

(** X7: every value offered after ["All"] matches some row: picking it
    alone, with ["All"] in the other three dimensions, never gives an
    empty frame, and every row kept has that value. *)
Theorem apply_filters_offered_value d df v :
  v ∈ tail (options (column d) df) →
  apply_filters (choose d [v] all_selected) df ≠ [] ∧
  (v ≠ "All" →
   ∀ r, r ∈ apply_filters (choose d [v] all_selected) df → column d r = v).
Proof.
  intros (r & Hr & Hv)%elem_of_tail_options. split.
  - intros Hnil. assert (Hin : r ∈ apply_filters (choose d [v] all_selected) df).
    { apply elem_of_apply_filters. split; [done|]. intros d'.
      destruct (decide (d' = d)) as [->|Hne].
      - rewrite chosen_choose_eq. right. rewrite Hv. apply list_elem_of_here.
      - rewrite chosen_choose_ne by done. left.
        destruct d'; apply list_elem_of_here. }
    rewrite Hnil in Hin. by apply elem_of_nil in Hin.
  - intros Hne r' [_ H]%elem_of_apply_filters. specialize (H d).
    rewrite chosen_choose_eq in H.
    destruct H as [H|H]; apply list_elem_of_singleton in H; congruence.
Qed.
(** X25: a selection without ["All"] whose values occur in no row of the
    frame, in one dimension, empties the result whatever the other three
    dimensions select; nothing fails. *)
Theorem apply_filters_no_match d sel df :
  "All" ∉ chosen d sel →
  (∀ r, r ∈ df → column d r ∉ chosen d sel) →
  apply_filters sel df = [].
Proof.
  intros Hall Hnone. apply elem_of_nil_inv. intros r.
  rewrite elem_of_apply_filters. intros [Hr H]. specialize (H d).
  destruct H as [H|H]; [done|]. by apply (Hnone r).
Qed.
End sidebar_options.

(** ** Metrics calculator: helpers *)

Lemma mean_nonempty (col : list Q) : col ≠ [] → ∃ m, mean col = Num m.
Proof. intros Hne. destruct col; [done|]. by eexists. Qed.

Lemma total_orders_length (df : DataFrame) :
  total_orders (calculate_kpis df) = length df.
Proof. by destruct df. Qed.

(** ** Grouped series: what is in them and how they are ordered *)

Global Instance value_ge_total {K} : Total (λ a b : K * Q, (b.2 <= a.2)%Q).
Proof.
  intros a b. destruct (Qlt_le_dec a.2 b.2) as [H|H]; [right|left; done].
  by apply Qlt_le_weak.
Qed.

Global Instance count_ge_total : Total count_ge.
Proof. intros a b. unfold count_ge. lia. Qed.

Global Instance mean_ge_total : Total mean_ge.
Proof.
  intros [? [x|]] [? [y|]]; unfold mean_ge; simpl; auto.
  destruct (Qlt_le_dec x y) as [H|H]; [right|left; done].
  by apply Qlt_le_weak.
Qed.

Global Instance period_le_total : Total period_le.
Proof. intros a b. unfold period_le. lia. Qed.

Section groups.
Context {K : Type} `{EqDecision K} (le : relation K) `{!RelDecision le}.
Implicit Types (key : row → K) (df : DataFrame) (k : K).

Lemma elem_of_groupby key df k g :
  (k, g) ∈ groupby le key df ↔
  k ∈ key <$> df ∧ g = filter (λ r, key r = k) df.
Proof.
  unfold groupby. rewrite list_elem_of_fmap. split.
  - intros (k' & [= -> ->] & Hk).
    by rewrite merge_sort_Permutation, elem_of_remove_dups in Hk.
  - intros [Hk ->]. exists k. split; [done|].
    by rewrite merge_sort_Permutation, elem_of_remove_dups.
Qed.

Lemma groupby_NoDup key df : NoDup (groupby le key df).*1.
Proof. rewrite groupby_keys. apply NoDup_remove_dups. Qed.

Lemma groupby_Sorted `{!Total le} key df : Sorted le (groupby le key df).*1.
Proof. rewrite groupby_fst. by apply Sorted_merge_sort. Qed.

Lemma group_nonempty key df k :
  k ∈ key <$> df → filter (λ r, key r = k) df ≠ [].
Proof.
  intros (r & -> & Hr)%list_elem_of_fmap Hnil.
  assert (Hin : r ∈ filter (λ r', key r' = key r) df)
    by by apply list_elem_of_filter.
  rewrite Hnil in Hin. by apply elem_of_nil in Hin.
Qed.

(** Every row is counted in the group of its key and in no other. *)
Lemma size_groups key (ks : list K) df :
  NoDup ks → (∀ r, r ∈ df → key r ∈ ks) →
  sum_list ((λ k, length (filter (λ r, key r = k) df)) <$> ks) = length df.
Proof.
  intros Hnd. induction df as [|r df IH]; intros Hkeys.
  - clear. induction ks as [|k ks IH]; [done|]. simpl in *. done.
  - simpl. rewrite <-IH by (intros; apply Hkeys; by right).
    assert (Hr : key r ∈ ks) by (apply Hkeys; left).
    clear IH Hkeys. induction Hnd as [|k ks Hk Hnd IH].
    + by apply elem_of_nil in Hr.
    + rewrite !fmap_cons. simpl. rewrite filter_cons.
      destruct (decide (key r = k)) as [<-|Hne].
      * assert (Hout :
          (λ k0, length (filter (λ r', key r' = k0) (r :: df))) <$> ks =
          (λ k0, length (filter (λ r', key r' = k0) df)) <$> ks).
        { apply list_fmap_ext. intros i k Hi.
          rewrite filter_cons_False; [done|]. intros <-.
          apply Hk, list_elem_of_lookup. by exists i. }
        rewrite Hout. done.
      * apply elem_of_cons in Hr as [?|Hr]; [done|]. rewrite (IH Hr). lia.
Qed.

Lemma groupby_sizes key df :
  sum_list (group_size <$> groupby le key df).*2 = length df.
Proof.
  unfold groupby. rewrite <-!list_fmap_compose.
  rewrite <-(size_groups key (merge_sort le (remove_dups (key <$> df))) df).
  - done.
  - rewrite merge_sort_Permutation. apply NoDup_remove_dups.
  - intros r Hr. rewrite merge_sort_Permutation, elem_of_remove_dups.
    by apply list_elem_of_fmap_2.
Qed.

(** The entries of a series of group sums, however it is sorted. *)
Lemma group_sums_entries key (val : row → Q) df (series : list (K * Q)) k v :
  series ≡ₚ group_sum val <$> groupby le key df →
  (k, v) ∈ series ↔
  k ∈ key <$> df ∧ v = Qsum (val <$> filter (λ r, key r = k) df).
Proof.
  intros ->. rewrite list_elem_of_fmap. split.
  - intros ([k' g] & [= -> ->] & [Hk ->]%elem_of_groupby). done.
  - intros [Hk ->]. exists (k, filter (λ r, key r = k) df).
    split; [done|]. by apply elem_of_groupby.
Qed.

Lemma group_sums_NoDup key (val : row → Q) df (series : list (K * Q)) :
  series ≡ₚ group_sum val <$> groupby le key df → NoDup series.*1.
Proof.
  intros ->. rewrite <-list_fmap_compose.
  rewrite (list_fmap_ext _ fst) by done. apply groupby_NoDup.
Qed.
End groups.

Section series.
Implicit Types (df : DataFrame).

(** X11: item 2 lists every region that occurs in the frame once, with the
    sum of that region's sales, largest sum first; a region without rows
    is not listed. *)
Theorem sales_by_region_spec df :
  Sorted (λ a b, (b.2 <= a.2)%Q) (sales_by_region df) ∧
  NoDup (sales_by_region df).*1 ∧
  (∀ k v, (k, v) ∈ sales_by_region df ↔
     k ∈ Region <$> df ∧ v = Qsum (Sales <$> filter (λ r, Region r = k) df)).
Proof.
  assert (Hperm : sales_by_region df ≡ₚ
    group_sum Sales <$> groupby string_le Region df)
    by apply merge_sort_Permutation.
  split_and!.
  - apply (Sorted_merge_sort _).
  - by eapply group_sums_NoDup.
  - intros k v. by eapply group_sums_entries.
Qed.

(** X12: item 6 lists every segment that occurs in the frame once, with
    the sum of that segment's profit, largest sum first; a segment without
    rows is not listed. *)
Theorem profit_by_segment_spec df :
  Sorted (λ a b, (b.2 <= a.2)%Q) (profit_by_segment df) ∧
  NoDup (profit_by_segment df).*1 ∧
  (∀ k v, (k, v) ∈ profit_by_segment df ↔
     k ∈ Customer_Segment <$> df ∧
     v = Qsum (Profit <$> filter (λ r, Customer_Segment r = k) df)).
Proof.
  assert (Hperm : profit_by_segment df ≡ₚ
    group_sum Profit <$> groupby string_le Customer_Segment df)
    by apply merge_sort_Permutation.
  split_and!.
  - apply (Sorted_merge_sort _).
  - by eapply group_sums_NoDup.
  - intros k v. by eapply group_sums_entries.
Qed.

(** X13: item 7 lists every payment method that occurs once, with the
    number of its rows, which is at least 1, largest count first, and the
    counts add up to the number of rows of the frame. *)
Theorem payment_counts_spec df :
  Sorted count_ge (payment_counts df) ∧
  NoDup (payment_counts df).*1 ∧
  (∀ k n, (k, n) ∈ payment_counts df ↔
     k ∈ Payment_Method <$> df ∧
     n = length (filter (λ r, Payment_Method r = k) df)) ∧
  (∀ k n, (k, n) ∈ payment_counts df → 1 ≤ n) ∧
  sum_list (payment_counts df).*2 = length df.
Proof.
  assert (Hperm : payment_counts df ≡ₚ
    group_size <$> groupby string_le Payment_Method df)
    by apply merge_sort_Permutation.
  assert (Hentries : ∀ k n, (k, n) ∈ payment_counts df ↔
     k ∈ Payment_Method <$> df ∧
     n = length (filter (λ r, Payment_Method r = k) df)).
  { intros k n. rewrite Hperm, list_elem_of_fmap. split.
    - intros ([k' g] & [= -> ->] & [Hk ->]%elem_of_groupby). done.
    - intros [Hk ->]. exists (k, filter (λ r, Payment_Method r = k) df).
      split; [done|]. by apply elem_of_groupby. }
  split_and!.
  - apply (Sorted_merge_sort _).
  - rewrite Hperm, <-list_fmap_compose.
    rewrite (list_fmap_ext _ fst) by done. apply groupby_NoDup.
  - exact Hentries.
  - intros k n [Hk ->]%Hentries.
    pose proof (group_nonempty Payment_Method df k Hk) as Hne.
    destruct (filter _ df); [done|]. simpl. lia.
  - rewrite Hperm. apply groupby_sizes.
Qed.
End series.

Section more_series.
Implicit Types (df : DataFrame).

Lemma sum_list_concat (ls : list (list nat)) :
  sum_list (concat ls) = sum_list (sum_list <$> ls).
Proof.
  induction ls as [|l ls IH]; [done|].
  simpl. by rewrite sum_list_with_app, IH.
Qed.

Lemma order_counts_cells df :
  cells (order_counts df) =
  (λ s, (λ t, count_pair df s t) <$> columns (order_counts df)) <$>
  index (order_counts df).
Proof.
  unfold order_counts at 1. simpl.
  apply list_fmap_ext. intros _ s _. apply list_fmap_ext. intros _ t _.
  rewrite size_series_lookup. case_decide; [done|].
  simpl. by rewrite count_pair_absent.
Qed.

Lemma count_pair_nested df s t :
  count_pair df s t =
  length (filter (λ r, Shipping_Type r = t)
            (filter (λ r, Customer_Segment r = s) df)).
Proof.
  unfold count_pair. rewrite list_filter_filter. f_equal.
  apply list_filter_iff. intros r. unfold pair_key. split.
  - by intros [= -> ->].
  - by intros [-> ->].
Qed.

Lemma order_counts_line_sum df s :
  sum_list ((λ t, count_pair df s t) <$> columns (order_counts df)) =
  length (filter (λ r, Customer_Segment r = s) df).
Proof.
  rewrite (list_fmap_ext _
    (λ t, length (filter (λ r, Shipping_Type r = t)
                    (filter (λ r, Customer_Segment r = s) df))))
    by (intros; apply count_pair_nested).
  apply (size_groups Shipping_Type).
  - apply unstack_NoDup.
  - intros r [_ Hr]%list_elem_of_filter.
    apply order_counts_columns_elem. by apply list_elem_of_fmap_2.
Qed.

(** X14: in the grid of item 8 every row of the frame is counted once: the
    counts on the line of a segment add up to the number of rows of that
    segment, and all counts together add up to the number of rows of the
    frame. *)
Theorem order_counts_totals df :
  (∀ i s line,
     index (order_counts df) !! i = Some s →
     cells (order_counts df) !! i = Some line →
     sum_list line = length (filter (λ r, Customer_Segment r = s) df)) ∧
  sum_list (concat (cells (order_counts df))) = length df.
Proof.
  split.
  - intros i s line Hi. rewrite order_counts_cells, list_lookup_fmap, Hi.
    intros [= <-]. apply order_counts_line_sum.
  - rewrite sum_list_concat, order_counts_cells, <-list_fmap_compose.
    rewrite (list_fmap_ext _
      (λ s, length (filter (λ r, Customer_Segment r = s) df)))
      by (intros; apply order_counts_line_sum).
    apply (size_groups Customer_Segment).
    + apply unstack_NoDup.
    + intros r Hr. apply order_counts_index_elem. by apply list_elem_of_fmap_2.
Qed.

Lemma avg_profit_by_shipping_entry df k v :
  (k, v) ∈ avg_profit_by_shipping df ↔
  k ∈ Shipping_Type <$> df ∧
  v = mean (Profit <$> filter (λ r, Shipping_Type r = k) df).
Proof.
  unfold avg_profit_by_shipping.
  rewrite merge_sort_Permutation, list_elem_of_fmap. split.
  - intros ([k' g] & [= -> ->] & [Hk ->]%elem_of_groupby). done.
  - intros [Hk ->]. exists (k, filter (λ r, Shipping_Type r = k) df).
    split; [done|]. by apply elem_of_groupby.
Qed.

Lemma avg_profit_by_shipping_Num df k v :
  (k, v) ∈ avg_profit_by_shipping df → ∃ m, v = Num m.
Proof.
  intros [Hk ->]%avg_profit_by_shipping_entry. apply mean_nonempty.
  intros Hnil%fmap_nil_inv. by apply (group_nonempty Shipping_Type df k).
Qed.

(** X15: item 9 lists every shipping type that occurs in the frame once,
    with the mean profit of its rows, largest mean first; a shipping type
    without rows is not listed, and no listed mean is NaN. *)
Theorem avg_profit_by_shipping_spec df :
  Sorted mean_ge (avg_profit_by_shipping df) ∧
  NoDup (avg_profit_by_shipping df).*1 ∧
  (∀ k v, (k, v) ∈ avg_profit_by_shipping df ↔
     k ∈ Shipping_Type <$> df ∧
     v = mean (Profit <$> filter (λ r, Shipping_Type r = k) df)) ∧
  (∀ k v, (k, v) ∈ avg_profit_by_shipping df → v ≠ NaN).
Proof.
  assert (Hperm : avg_profit_by_shipping df ≡ₚ
    group_mean Profit <$> groupby string_le Shipping_Type df)
    by apply merge_sort_Permutation.
  split_and!.
  - apply (Sorted_merge_sort _).
  - rewrite Hperm, <-list_fmap_compose.
    rewrite (list_fmap_ext _ fst) by done. apply groupby_NoDup.
  - apply avg_profit_by_shipping_entry.
  - intros k v [m ->]%avg_profit_by_shipping_Num. done.
Qed.

(** X16: item 1 lists every month that occurs in the frame once, in
    chronological order, with that month's sales sum under the month's
    text label; a month without rows is not listed. *)
Theorem monthly_sales_spec df :
  ∃ periods,
    Sorted period_le periods ∧ NoDup periods ∧
    (∀ p, p ∈ periods ↔ p ∈ YearMonth <$> df) ∧
    monthly_sales df =
      (λ p, (period_str p,
             Qsum (Sales <$> filter (λ r, YearMonth r = p) df))) <$> periods.
Proof.
  exists (groupby period_le YearMonth df).*1. split_and!.
  - apply (groupby_Sorted period_le).
  - apply groupby_NoDup.
  - intros p. by rewrite groupby_keys, elem_of_remove_dups.
  - unfold monthly_sales, groupby. rewrite <-!list_fmap_compose. done.
Qed.
End more_series.

(** ** Record generator: what every generated row satisfies *)

Lemma round2_nonneg (x : Q) : (0 <= x)%Q → (0 <= round2 x)%Q.
Proof.
  intros Hx. unfold round2.
  assert (Hn : (0 ≤ Qnum x * 100)%Z).
  { unfold Qle in Hx. simpl in Hx. lia. }
  assert (Hq : (0 ≤ (Qnum x * 100) `div` Z.pos (Qden x))%Z)
    by (apply Z.div_pos; lia).
  apply Qmult_le_0_compat; [|done].
  unfold Qle. simpl. repeat case_decide; try destruct (Z.odd _); lia.
Qed.

Section generated_rows.
Context {L : random_sources}.
Implicit Types (today : date) (entropy : fk_rng) (n : nat) (r : row).

Lemma draws_Forall {S A} (P : A → Prop) n (draw : S → A * S) (g : S) :
  (∀ g', P (draw g').1) → Forall P (draws n draw g).1.
Proof.
  intros HP. revert g. induction n as [|n IH]; intros g; simpl.
  - constructor.
  - constructor; [apply HP|apply IH].
Qed.

Lemma nth_Forall {A} (P : A → Prop) (l : list A) i default :
  Forall P l → i < length l → P (nth i l default).
Proof.
  intros Hl Hi. rewrite Forall_forall in Hl.
  apply Hl, list_elem_of_In, nth_In. lia.
Qed.

Lemma elem_of_frame_of (d : columns_of_data) r :
  r ∈ frame_of d ↔ ∃ i, i < length (c_Order_ID d) ∧ r = frame_row d i.
Proof.
  unfold frame_of. rewrite list_elem_of_fmap. split.
  - intros (i & -> & Hi). exists i. split; [|done].
    apply elem_of_seq in Hi. lia.
  - intros (i & Hi & ->). exists i. split; [done|].
    apply elem_of_seq. lia.
Qed.

Lemma choice_elem_of {A} (default : A) (seq : list A) g :
  randbelow_in_range → seq ≠ [] → (choice default seq g).1 ∈ seq.
Proof.
  intros Hrange Hne. unfold choice. simpl.
  apply list_elem_of_In, nth_In. apply Hrange.
  destruct seq; [done|]. simpl. lia.
Qed.

Lemma randint_range g :
  randbelow_in_range → (1 ≤ (randint 1 10 g).1 ≤ 10)%Z.
Proof.
  intros Hrange. unfold randint. cbn [fst].
  change (Z.to_nat (10 - 1 + 1)) with 10.
  pose proof (Hrange 10 g). lia.
Qed.

Lemma discount_values g :
  randbelow_in_range →
  ∃ d, d ∈ [0; 1 # 10; 2 # 10; 3 # 10]%Q ∧ ((discount g).1 == d)%Q.
Proof.
  intros Hrange.
  assert (Hround : ∀ x, x ∈ [0; 1 # 10; 2 # 10; 3 # 10]%Q → (round2 x == x)%Q).
  { intros x H.
    repeat (apply elem_of_cons in H as [->|H]; [by vm_compute|]).
    by apply elem_of_nil in H. }
  pose proof (choice_elem_of 0%Q [0; 1 # 10; 2 # 10; 3 # 10]%Q g Hrange) as H.
  specialize (H ltac:(done)).
  exists (choice 0%Q [0; 1 # 10; 2 # 10; 3 # 10]%Q g).1. split; [done|].
  unfold discount. cbn [fst]. by apply Hround.
Qed.

Lemma skewed_profit_nonneg g : (0 <= (skewed_profit g).1)%Q.
Proof.
  unfold skewed_profit. simpl. case_decide as H; [apply Qle_refl|].
  by apply Qnot_lt_le.
Qed.

(** X17: the sixteen columns of [data] all have [n_rows] = 10000 entries,
    so the frame built from them has 10000 rows and every field of every
    row is a drawn value. *)
Theorem data_columns_length today entropy :
  let d := data today entropy in
  Z.of_nat n_rows = 10000%Z ∧
  length (df today entropy) = n_rows ∧
  length (c_Order_ID d) = n_rows ∧ length (c_Order_Date d) = n_rows ∧
  length (c_Customer_ID d) = n_rows ∧ length (c_Customer_Name d) = n_rows ∧
  length (c_Region d) = n_rows ∧ length (c_Category d) = n_rows ∧
  length (c_Sub_Category d) = n_rows ∧ length (c_Sales d) = n_rows ∧
  length (c_Quantity d) = n_rows ∧ length (c_Discount d) = n_rows ∧
  length (c_Profit d) = n_rows ∧ length (c_Payment_Method d) = n_rows ∧
  length (c_Customer_Segment d) = n_rows ∧
  length (c_Shipping_Type d) = n_rows ∧
  length (c_Product_ID d) = n_rows ∧ length (c_Product_Name d) = n_rows.
Proof.
  cbv zeta. split.
  - unfold n_rows. apply Z2Nat.id. lia.
  - unfold df, data, frame_of. generalize n_rows. intros n.
    rewrite length_fmap, length_seq. unfold data_n. simpl.
    split_and!; apply draws_length.
Qed.

Lemma frame_rows_in_range n today entropy r :
  randbelow_in_range →
  r ∈ frame_of (data_n n today entropy) →
  Region r ∈ regions ∧ Category r ∈ categories ∧
  Payment_Method r ∈ payment_methods ∧
  Customer_Segment r ∈ customer_segments ∧
  Shipping_Type r ∈ shipping_types ∧
  (1 ≤ Quantity r ≤ 10)%Z ∧
  ∃ d, d ∈ [0; 1 # 10; 2 # 10; 3 # 10]%Q ∧ (Discount r == d)%Q.
Proof.
  intros Hrange (i & Hi & ->)%elem_of_frame_of.
  rewrite data_n_length in Hi. unfold data_n, frame_row.
  cbn [Region Category Payment_Method Customer_Segment Shipping_Type
       Quantity Discount c_Region c_Category c_Payment_Method
       c_Customer_Segment c_Shipping_Type c_Quantity c_Discount].
  split; [|split; [|split; [|split; [|split; [|split]]]]].
  - apply nth_Forall; [|by rewrite draws_length].
    apply draws_Forall. intros g. by apply choice_elem_of.
  - apply nth_Forall; [|by rewrite draws_length].
    apply draws_Forall. intros g. by apply choice_elem_of.
  - apply nth_Forall; [|by rewrite draws_length].
    apply draws_Forall. intros g. by apply choice_elem_of.
  - apply nth_Forall; [|by rewrite draws_length].
    apply draws_Forall. intros g. by apply choice_elem_of.
  - apply nth_Forall; [|by rewrite draws_length].
    apply draws_Forall. intros g. by apply choice_elem_of.
  - apply (nth_Forall (λ q, 1 ≤ q ≤ 10)%Z); [|by rewrite draws_length].
    apply draws_Forall. intros g. by apply randint_range.
  - apply (nth_Forall
      (λ q, ∃ d, d ∈ [0; 1 # 10; 2 # 10; 3 # 10]%Q ∧ (q == d)%Q));
      [|by rewrite draws_length].
    apply draws_Forall. intros g. by apply discount_values.
Qed.

Lemma frame_amounts_nonneg n today entropy r :
  r ∈ frame_of (data_n n today entropy) →
  (0 <= Profit r)%Q ∧
  ((∀ g, 0 <= (np_exponential 100 g).1)%Q → (0 <= Sales r)%Q).
Proof.
  intros (i & Hi & ->)%elem_of_frame_of.
  rewrite data_n_length in Hi. unfold data_n, frame_row.
  cbn [Profit Sales c_Profit c_Sales].
  split.
  - apply (nth_Forall (λ q, 0 <= q)%Q); [|by rewrite draws_length].
    apply draws_Forall. intros g. apply skewed_profit_nonneg.
  - intros Hexp.
    apply (nth_Forall (λ q, 0 <= q)%Q); [|by rewrite draws_length].
    apply draws_Forall. intros g. unfold skewed_sales. cbn [fst].
    apply round2_nonneg, Hexp.
Qed.

(** X18: when the index draw of [random] keeps to its range, every
    generated row has its region, category, payment method, customer
    segment and shipping type in the program's lists, a quantity from 1 to
    10 and a discount of 0, 0.1, 0.2 or 0.3. *)
Theorem df_rows_in_range today entropy r :
  randbelow_in_range →
  r ∈ df today entropy →
  Region r ∈ regions ∧ Category r ∈ categories ∧
  Payment_Method r ∈ payment_methods ∧
  Customer_Segment r ∈ customer_segments ∧
  Shipping_Type r ∈ shipping_types ∧
  (1 ≤ Quantity r ≤ 10)%Z ∧
  ∃ d, d ∈ [0; 1 # 10; 2 # 10; 3 # 10]%Q ∧ (Discount r == d)%Q.
Proof. apply frame_rows_in_range. Qed.

(** X19: no generated row has a negative profit, whatever the normal draw
    gives; and no generated row has a negative sales amount when the
    exponential draw gives none. *)
Theorem df_amounts_nonneg today entropy r :
  r ∈ df today entropy →
  (0 <= Profit r)%Q ∧
  ((∀ g, 0 <= (np_exponential 100 g).1)%Q → (0 <= Sales r)%Q).
Proof. apply frame_amounts_nonneg. Qed.
End generated_rows.

(** ** The page: what [main] shows *)

Section page.
Implicit Types (ui : sidebar) (df : DataFrame) (e : element).
Local Set Warnings "-clear-no-such-hyp,-unused-intro-pattern".

Lemma elem_of_main ui df e :
  e ∈ main ui df ↔
  e = Markdown "Sales Analytics Dashboard" ∨
  e = Success (length (apply_filters_sidebar ui df)) (length df) ∨
  e ∈ display_kpis (calculate_kpis (apply_filters_sidebar ui df)) ∨
  e = Markdown "---" ∨
  (apply_filters_sidebar ui df ≠ [] ∧
   e = DownloadButton "Download Filtered Data" (apply_filters_sidebar ui df)) ∨
  e = DownloadButton "Download Full Dataset" df ∨
  (checkbox ui "Show Raw Data" = true ∧
   (e = Markdown "Raw Data Preview" ∨
    (apply_filters_sidebar ui df ≠ [] ∧
     e = DataFrameView (apply_filters_sidebar ui df)) ∨
    (apply_filters_sidebar ui df = [] ∧
     e = InfoText "No data to display with current filters"))) ∨
  (apply_filters_sidebar ui df ≠ [] ∧
   e ∈ create_visualizations (apply_filters_sidebar ui df)) ∨
  (apply_filters_sidebar ui df = [] ∧
   e = Warning "No data available with current filters.") ∨
  e = Markdown "Dataset Information" ∨
  e = InfoCount "Total Records" (length (apply_filters_sidebar ui df)) ∨
  e = InfoCount "Total Columns" n_columns ∨
  e = InfoMemory (apply_filters_sidebar ui df) ∨
  e = Markdown "Sales Analytics Dashboard v1.0".
Proof.
  unfold main. cbv zeta. generalize (apply_filters_sidebar ui df).
  intros filtered. rewrite !elem_of_app.
  destruct (checkbox ui "Show Raw Data");
    destruct filtered as [|r filtered]; simpl length;
    repeat case_decide; try lia;
    rewrite ?elem_of_cons, ?elem_of_nil; naive_solver.
Qed.

Lemma elem_of_kpis (k : kpis) e :
  e ∈ display_kpis k →
  (∃ v, e = Metric "Total Sales" v ∧ v = Num (total_sales k)) ∨
  (∃ v, e = Metric "Avg Profit" v ∧ v = average_profit k) ∨
  (∃ v, e = Metric "Avg Quantity" v ∧ v = average_quantity k) ∨
  e = Markdown "Key Performance Indicators" ∨
  e = MetricCount "Total Orders" (total_orders k).
Proof.
  unfold display_kpis. rewrite !elem_of_cons, elem_of_nil. naive_solver.
Qed.

Lemma display_kpis_no_plot k fig : Plot fig ∉ display_kpis k.
Proof. intros H%elem_of_kpis. naive_solver. Qed.

Lemma elem_of_visualizations df e :
  e ∈ create_visualizations df →
  e = Markdown "---" ∨ e = Markdown "Data Visualizations" ∨
  ∃ fig, e = Plot fig ∧
    (fig = Line (monthly_sales df) ∨ fig = Bar (sales_by_region df) ∨
     fig = Box ((λ r, (Category r, Profit r)) <$> df) ∨
     fig = Histogram (Quantity <$> df) ∨
     fig = Scatter ((λ r, (Sales r, Profit r)) <$> df) ∨
     fig = Bar (profit_by_segment df) ∨ fig = Pie (payment_counts df) ∨
     fig = StackedBar (order_counts df) ∨
     fig = BarMean (avg_profit_by_shipping df) ∨
     fig = Box ((λ r, (Category r, Sales r)) <$> df)).
Proof.
  unfold create_visualizations. rewrite !elem_of_cons, elem_of_nil.
  naive_solver.
Qed.

(** Case analysis on where an element of the page comes from. *)
Ltac page_cases H :=
  repeat match type of H with _ ∨ _ => destruct H as [H|H] end.
Ltac page_other H :=
  try done;
  try (by apply display_kpis_no_plot in H);
  try (by destruct H as [? ?]);
  try (by destruct H as [_ [H|[[_ H]|[_ H]]]]).



(** X22: the download of the full data set is always on the page and
    always holds the unfiltered frame; the only other download holds the
    filtered frame and is there only when that frame has rows. *)
Theorem main_downloads ui df :
  DownloadButton "Download Full Dataset" df ∈ main ui df ∧
  (∀ label rows, DownloadButton label rows ∈ main ui df →
     (label = "Download Full Dataset" ∧ rows = df) ∨
     (label = "Download Filtered Data" ∧
      rows = apply_filters_sidebar ui df ∧ rows ≠ [])).
Proof.
  split.
  - apply elem_of_main. do 5 right. by left.
  - intros label rows H%elem_of_main. page_cases H; page_other H.
    + apply elem_of_kpis in H. naive_solver.
    + destruct H as [Hne [= -> ->]]. by right.
    + injection H as -> ->. by left.
    + destruct H as [_ H]. apply elem_of_visualizations in H. naive_solver.
Qed.

(** X23: the banner, the Total Orders card and the Total Records line of
    one page show the same number, the number of rows of the filtered
    frame, and it is at most the total shown in the banner, the number of
    rows of the whole frame. *)
Theorem main_counts ui df :
  ∃ n, n = length (apply_filters_sidebar ui df) ∧ n ≤ length df ∧
       Success n (length df) ∈ main ui df ∧
       MetricCount "Total Orders" n ∈ main ui df ∧
       InfoCount "Total Records" n ∈ main ui df.
Proof.
  exists (length (apply_filters_sidebar ui df)). split_and!; [done| | | |].
  - unfold apply_filters_sidebar. rewrite apply_filters_passes.
    apply length_filter.
  - apply elem_of_main. right. by left.
  - apply elem_of_main. do 2 right. left. unfold display_kpis.
    rewrite total_orders_length. do 4 apply list_elem_of_further.
    apply list_elem_of_here.
  - apply elem_of_main. do 10 right. by left.
Qed.

(** X24: nothing on the page is NaN: not one of the three KPI cards with
    an amount, and not one bar of the mean-profit chart. *)
Theorem main_no_NaN ui df :
  (∀ label v, Metric label v ∈ main ui df → v ≠ NaN) ∧
  (∀ series k v, Plot (BarMean series) ∈ main ui df →
     (k, v) ∈ series → v ≠ NaN).
Proof.
  split.
  - intros label v H%elem_of_main. page_cases H; page_other H.
    + apply elem_of_kpis in H.
      destruct H as [(v' & [= _ <-] & ->)|[(v' & [= _ <-] & ->)|
                     [(v' & [= _ <-] & ->)|[H|H]]]]; try done;
        by destruct (apply_filters_sidebar ui df).
    + destruct H as [_ H]. apply elem_of_visualizations in H. naive_solver.
  - intros series k v H%elem_of_main Hkv. page_cases H; page_other H.
    destruct H as [_ H].
    apply elem_of_visualizations in H as [H|[H|(fig & [= <-] & H)]];
      try done.
    page_cases H; try done. injection H as ->.
    apply avg_profit_by_shipping_Num in Hkv as [m ->]. done.
Qed.
End page.

(** ** Worked examples *)

(** The example of the specification: regions North, North, South with
    sales 10, 20, 5. *)
Example sales_by_region_sample :
  sales_by_region sample_df = [("North", 30%Q); ("South", 5%Q)] ∧
  total_sales (calculate_kpis sample_df) = 35%Q.
Proof. by vm_compute. Qed.

Example apply_filters_south :
  apply_filters (choose DRegion ["South"] all_selected) sample_df = [r_south] ∧
  total_sales (calculate_kpis [r_south]) = 5%Q.
Proof. by vm_compute. Qed.

(** Rounding at work: the binary64 mean of 0.21, 0 and 0 is
    0.06999999999999999, and three times it is 0.20999999999999996, not
    the 0.21 that the column sums to; and a group sum can differ from the
    column sum of the same seven values. *)
Example mean_rounds :
  F64.mean (F64.of_Q <$> [21 # 100; 0; 0]%Q) = 0x1.1eb851eb851ebp-4%float ∧
  (F64.mean (F64.of_Q <$> [21 # 100; 0; 0]%Q) * 3)%float =
    0x1.ae147ae147ae0p-3%float ∧
  F64.np_sum (F64.of_Q <$> [1 # 10; 0; 2 # 10; 3 # 10; 0; 0; 0]%Q) =
    0x1.3333333333334p-1%float ∧
  F64.group_sum (F64.of_Q <$> [1 # 10; 0; 2 # 10; 3 # 10; 0; 0; 0]%Q) =
    0x1.3333333333333p-1%float.
Proof. vm_compute. split_and!; reflexivity. Qed.


(** C1 fails on the code: with ["All"] in the other three dimensions, an
    empty region selection removes all three sample rows, while the
    ["All"] sentinel keeps them. *)
Lemma apply_filters_empty_region_counterexample :
  apply_filters (choose DRegion [] all_selected) sample_df = [] ∧
  apply_filters (choose DRegion ["All"] all_selected) sample_df = sample_df ∧
  apply_filters (choose DRegion [] all_selected) sample_df ≠
  apply_filters (choose DRegion ["All"] all_selected) sample_df.
Proof. vm_compute. split_and!; [reflexivity|reflexivity|discriminate]. Qed.

Lemma apply_filters_empty_selection_witness :
  apply_filters (choose DCategory [] all_selected) sample_df = [] ∧
  r_south ∈ apply_filters (choose DCategory ["All"] all_selected) sample_df.
Proof.
  destruct (apply_filters_empty_selection DCategory all_selected sample_df)
    as [Hempty Hall].
  split; [exact Hempty|]. apply Hall. split.
  - unfold sample_df. do 2 apply list_elem_of_further. apply list_elem_of_here.
  - intros d' _. left. destruct d'; apply list_elem_of_here.
Defined.

(** C8 fails on the code: with nothing selected in any dimension the three
    sample rows are all removed. *)
Lemma apply_filters_nothing_selected_counterexample :
  apply_filters nothing_selected sample_df = [] ∧
  apply_filters nothing_selected sample_df ≠ sample_df.
Proof. vm_compute. split; [reflexivity|discriminate]. Qed.

(** C2 fails on the code when a segment has no row: the sample rows have
    two of the three segments and three of the four shipping types, so the
    grid has 6 cells, not 12, and the pair Home Office and First Class,
    which no row has, gets no cell. *)
Lemma order_counts_counterexample :
  n_cells (order_counts sample_df) = 6 ∧
  length customer_segments * length shipping_types = 12 ∧
  "Home Office" ∈ customer_segments ∧ "First Class" ∈ shipping_types ∧
  count_pair sample_df "Home Office" "First Class" = 0 ∧
  cell (order_counts sample_df) "Home Office" "First Class" = None.
Proof.
  split_and!; [by vm_compute|by vm_compute| | |by vm_compute|by vm_compute].
  - unfold customer_segments. set_solver.
  - unfold shipping_types. set_solver.
Qed.

Lemma order_counts_grid_witness :
  "Corporate" ∈ Customer_Segment <$> sample_df ∧
  "First Class" ∈ Shipping_Type <$> sample_df ∧
  (("Corporate", "First Class") ∉ pair_key <$> sample_df) ∧
  cell (order_counts sample_df) "Corporate" "First Class" = Some 0 ∧
  cell (order_counts sample_df) "Consumer" "First Class" = Some 1.
Proof.
  assert (Hs : "Corporate" ∈ Customer_Segment <$> sample_df) by compute_done.
  assert (Hs' : "Consumer" ∈ Customer_Segment <$> sample_df) by compute_done.
  assert (Ht : "First Class" ∈ Shipping_Type <$> sample_df) by compute_done.
  assert (Hst : ("Corporate", "First Class") ∉ pair_key <$> sample_df)
    by compute_done.
  destruct (order_counts_grid sample_df)
    as (_ & _ & _ & _ & _ & Hcount & Hzero & _).
  split_and!; [exact Hs|exact Ht|exact Hst|by apply Hzero|].
  exact (Hcount "Consumer" "First Class" Hs' Ht).
Defined.

(** Two runs started on the same day whose Faker generators start in
    different states. *)
Lemma df_depends_on_faker_state_witness :
  (@fk_uuid4 counter_sources 0).1 ≠ (@fk_uuid4 counter_sources 1).1 ∧
  @df counter_sources {| year := 2025; month := 6; day := 1 |} 0 ≠
  @df counter_sources {| year := 2025; month := 6; day := 1 |} 1.
Proof.
  assert (Hne : (@fk_uuid4 counter_sources 0).1 ≠ (@fk_uuid4 counter_sources 1).1)
    by (vm_compute; discriminate).
  split; [exact Hne|].
  exact (df_depends_on_faker_state (L := counter_sources) _ 0 1 Hne).
Defined.

Lemma calculate_kpis_empty_and_count_witness :
  sample_df ≠ [] ∧ total_orders (calculate_kpis sample_df) = 3.
Proof.
  assert (Hne : sample_df ≠ []) by discriminate.
  split; [exact Hne|].
  exact (proj2 (proj2 calculate_kpis_empty_and_count) sample_df Hne).
Defined.

Lemma apply_filters_subset_witness :
  r_south ∈ apply_filters (choose DRegion ["South"] all_selected) sample_df ∧
  r_south ∈ sample_df.
Proof.
  assert (Hin : r_south ∈
    apply_filters (choose DRegion ["South"] all_selected) sample_df)
    by (vm_compute; apply list_elem_of_here).
  split; [exact Hin|].
  exact (proj1 (proj2 (apply_filters_subset _ sample_df)) r_south Hin).
Defined.

Lemma apply_filters_no_mutation_witness :
  ({[0 := sample_df]} : gmap nat (list row)) !! 0 = Some sample_df ∧
  ∃ out σ',
    Obj.apply_filters (choose DRegion ["South"] all_selected) 0
      {[0 := sample_df]} = Some (out, σ') ∧
    out ≠ 0 ∧
    σ' !! out =
      Some (apply_filters (choose DRegion ["South"] all_selected) sample_df) ∧
    σ' !! 0 = Some sample_df.
Proof.
  assert (Hdf : ({[0 := sample_df]} : gmap nat (list row)) !! 0 = Some sample_df)
    by reflexivity.
  split; [exact Hdf|].
  destruct (apply_filters_no_mutation
              (choose DRegion ["South"] all_selected) _ 0 sample_df Hdf)
    as (out & σ' & Hrun & Hne & _ & Hout & Hin & _).
  exists out, σ'. split_and!; [exact Hrun|exact Hne|exact Hout|exact Hin].
Defined.

Lemma apply_filters_all_sentinel_witness :
  "All" ∈ chosen DRegion (choose DRegion ["All"; "South"] all_selected) ∧
  apply_filters (choose DRegion ["All"; "South"] all_selected) sample_df =
    sample_df ∧
  ("All" ∉ chosen DRegion (choose DRegion ["South"] all_selected)) ∧
  apply_filters (choose DRegion ["South"] all_selected) sample_df = [r_south].
Proof.
  assert (Hall : "All" ∈
    chosen DRegion (choose DRegion ["All"; "South"] all_selected))
    by apply list_elem_of_here.
  assert (Hnot : "All" ∉ chosen DRegion (choose DRegion ["South"] all_selected))
    by compute_done.
  split_and!; [exact Hall| |exact Hnot|].
  - rewrite (proj1 (apply_filters_all_sentinel DRegion _ sample_df) Hall).
    reflexivity.
  - rewrite (proj2 (apply_filters_all_sentinel DRegion _ sample_df) Hnot).
    reflexivity.
Defined.

(** ** Worked examples for the further properties *)

Lemma apply_filters_selection_set_witness :
  (∀ d v, v ∈ chosen d (choose DRegion ["South"; "North"; "South"] all_selected) ↔
          v ∈ chosen d (choose DRegion ["North"; "South"] all_selected)) ∧
  apply_filters (choose DRegion ["South"; "North"; "South"] all_selected) sample_df =
  apply_filters (choose DRegion ["North"; "South"] all_selected) sample_df.
Proof.
  assert (Hsame : ∀ d v,
    v ∈ chosen d (choose DRegion ["South"; "North"; "South"] all_selected) ↔
    v ∈ chosen d (choose DRegion ["North"; "South"] all_selected)).
  { intros d v. destruct d; simpl; [|done..].
    rewrite !elem_of_cons, elem_of_nil. tauto. }
  split; [exact Hsame|].
  exact (apply_filters_selection_set _ _ sample_df Hsame).
Defined.

Lemma apply_filters_narrow_witness :
  (∀ d v, allows (chosen d (choose DRegion ["South"] all_selected)) v →
          allows (chosen d (choose DRegion ["North"; "South"] all_selected)) v) ∧
  apply_filters (choose DRegion ["South"] all_selected)
    (apply_filters (choose DRegion ["North"; "South"] all_selected) sample_df) =
  apply_filters (choose DRegion ["South"] all_selected) sample_df.
Proof.
  assert (Hnarrow : ∀ d v,
    allows (chosen d (choose DRegion ["South"] all_selected)) v →
    allows (chosen d (choose DRegion ["North"; "South"] all_selected)) v).
  { intros d v. destruct d; simpl; [|done..]. unfold allows.
    rewrite !elem_of_cons, !elem_of_nil. tauto. }
  split; [exact Hnarrow|].
  exact (proj1 (apply_filters_narrow _ _ sample_df Hnarrow)).
Defined.

Lemma options_spec_witness :
  r_south ∈ sample_df ∧ "South" ∈ tail (options Region sample_df).
Proof.
  assert (Hin : r_south ∈ sample_df).
  { unfold sample_df. do 2 apply list_elem_of_further. apply list_elem_of_here. }
  split; [exact Hin|].
  destruct (options_spec Region sample_df) as (_ & _ & _ & Hopt).
  apply Hopt. exists r_south. split; [exact Hin|reflexivity].
Defined.

Lemma apply_filters_offered_value_witness :
  "South" ∈ tail (options Region sample_df) ∧
  apply_filters (choose DRegion ["South"] all_selected) sample_df ≠ [].
Proof.
  assert (Hin : "South" ∈ tail (options Region sample_df)) by compute_done.
  split; [exact Hin|].
  exact (proj1 (apply_filters_offered_value DRegion sample_df "South" Hin)).
Defined.

Lemma sales_by_region_spec_witness :
  ("North", 30%Q) ∈ sales_by_region sample_df ∧
  "North" ∈ Region <$> sample_df.
Proof.
  assert (Hin : ("North", 30%Q) ∈ sales_by_region sample_df)
    by (vm_compute; apply list_elem_of_here).
  split; [exact Hin|].
  destruct (sales_by_region_spec sample_df) as (_ & _ & Hentries).
  exact (proj1 (proj1 (Hentries "North" 30%Q) Hin)).
Defined.

Lemma profit_by_segment_spec_witness :
  ("Consumer", 4%Q) ∈ profit_by_segment sample_df ∧
  "Consumer" ∈ Customer_Segment <$> sample_df.
Proof.
  assert (Hin : ("Consumer", 4%Q) ∈ profit_by_segment sample_df)
    by (vm_compute; apply list_elem_of_here).
  split; [exact Hin|].
  destruct (profit_by_segment_spec sample_df) as (_ & _ & Hentries).
  exact (proj1 (proj1 (Hentries "Consumer" 4%Q) Hin)).
Defined.

Lemma payment_counts_spec_witness :
  ("PayPal", 2) ∈ payment_counts sample_df ∧
  2 = length (filter (λ r, Payment_Method r = "PayPal") sample_df).
Proof.
  assert (Hin : ("PayPal", 2) ∈ payment_counts sample_df)
    by (vm_compute; apply list_elem_of_here).
  split; [exact Hin|].
  destruct (payment_counts_spec sample_df) as (_ & _ & Hentries & _).
  exact (proj2 (proj1 (Hentries "PayPal" 2) Hin)).
Defined.

Lemma order_counts_totals_witness :
  index (order_counts sample_df) !! 0 = Some "Consumer" ∧
  cells (order_counts sample_df) !! 0 = Some [1; 0; 1] ∧
  sum_list [1; 0; 1] =
  length (filter (λ r, Customer_Segment r = "Consumer") sample_df).
Proof.
  assert (Hi : index (order_counts sample_df) !! 0 = Some "Consumer")
    by (vm_compute; reflexivity).
  assert (Hc : cells (order_counts sample_df) !! 0 = Some [1; 0; 1])
    by (vm_compute; reflexivity).
  split_and!; [exact Hi|exact Hc|].
  exact (proj1 (order_counts_totals sample_df) 0 "Consumer" [1; 0; 1] Hi Hc).
Defined.

Lemma avg_profit_by_shipping_spec_witness :
  ("Same Day", Num 0) ∈ avg_profit_by_shipping sample_df ∧
  "Same Day" ∈ Shipping_Type <$> sample_df ∧ Num 0 ≠ NaN.
Proof.
  assert (Hin : ("Same Day", Num 0) ∈ avg_profit_by_shipping sample_df).
  { vm_compute. do 2 apply list_elem_of_further. apply list_elem_of_here. }
  destruct (avg_profit_by_shipping_spec sample_df) as (_ & _ & Hentries & Hnum).
  split_and!; [exact Hin| |].
  - exact (proj1 (proj1 (Hentries "Same Day" (Num 0)) Hin)).
  - exact (Hnum "Same Day" (Num 0) Hin).
Defined.

Lemma monthly_sales_spec_witness :
  (2024%Z, 5%Z) ∈ YearMonth <$> sample_df ∧
  ∃ periods, (2024%Z, 5%Z) ∈ periods ∧
    monthly_sales sample_df =
      (λ p, (period_str p,
             Qsum (Sales <$> filter (λ r, YearMonth r = p) sample_df))) <$>
      periods.
Proof.
  assert (Hin : (2024%Z, 5%Z) ∈ YearMonth <$> sample_df) by compute_done.
  split; [exact Hin|].
  destruct (monthly_sales_spec sample_df) as (periods & _ & _ & Hp & Hm).
  exists periods. split; [apply Hp; exact Hin|exact Hm].
Defined.

Lemma counter_randbelow_in_range : @randbelow_in_range counter_sources.
Proof. intros n g Hn. simpl. apply Nat.mod_upper_bound. lia. Defined.

Lemma df_rows_in_range_witness :
  @randbelow_in_range counter_sources ∧
  frame_row (@data counter_sources {| year := 2025; month := 6; day := 1 |} 0%nat) 0%nat
    ∈ @df counter_sources {| year := 2025; month := 6; day := 1 |} 0 ∧
  (1 ≤ Quantity
         (frame_row
            (@data counter_sources {| year := 2025; month := 6; day := 1 |} 0%nat)
            0%nat) ≤ 10)%Z.
Proof.
  assert (Hin :
    frame_row (@data counter_sources {| year := 2025; month := 6; day := 1 |} 0%nat) 0%nat
    ∈ @df counter_sources {| year := 2025; month := 6; day := 1 |} 0).
  { apply elem_of_frame_of. exists 0.
    split; [|reflexivity].
    unfold data. rewrite (data_n_length (L := counter_sources)).
    destruct n_rows_positive as [m ->]. lia. }
  split; [exact counter_randbelow_in_range|split; [exact Hin|]].
  destruct (df_rows_in_range (L := counter_sources) _ _ _
              counter_randbelow_in_range Hin)
    as (_ & _ & _ & _ & _ & Hq & _).
  exact Hq.
Defined.

Lemma df_amounts_nonneg_witness :
  (∀ g, 0 <= (@np_exponential counter_sources 100 g).1)%Q ∧
  frame_row (@data counter_sources {| year := 2025; month := 6; day := 1 |} 0%nat) 0%nat
    ∈ @df counter_sources {| year := 2025; month := 6; day := 1 |} 0 ∧
  (0 <= Sales
          (frame_row
             (@data counter_sources {| year := 2025; month := 6; day := 1 |} 0%nat)
             0%nat))%Q.
Proof.
  assert (Hexp : (∀ g, 0 <= (@np_exponential counter_sources 100 g).1)%Q).
  { intros g. unfold Qle. simpl. lia. }
  assert (Hin :
    frame_row (@data counter_sources {| year := 2025; month := 6; day := 1 |} 0%nat) 0%nat
    ∈ @df counter_sources {| year := 2025; month := 6; day := 1 |} 0).
  { apply elem_of_frame_of. exists 0.
    split; [|reflexivity].
    unfold data. rewrite (data_n_length (L := counter_sources)).
    destruct n_rows_positive as [m ->]. lia. }
  split; [exact Hexp|split; [exact Hin|]].
  exact (proj2 (df_amounts_nonneg (L := counter_sources) _ _ _ Hin) Hexp).
Defined.

Lemma untouched_shows_sample :
  apply_filters_sidebar untouched sample_df = sample_df.
Proof. reflexivity. Qed.


Lemma main_downloads_witness :
  DownloadButton "Download Filtered Data" sample_df ∈ main untouched sample_df ∧
  sample_df = apply_filters_sidebar untouched sample_df.
Proof.
  assert (Hin : DownloadButton "Download Filtered Data" sample_df
                ∈ main untouched sample_df).
  { apply elem_of_main. do 4 right. left.
    rewrite untouched_shows_sample. split; [discriminate|reflexivity]. }
  split; [exact Hin|].
  destruct (proj2 (main_downloads untouched sample_df) _ _ Hin)
    as [[Hlabel _]|(_ & Hrows & _)]; [discriminate Hlabel|exact Hrows].
Defined.

Lemma main_no_NaN_witness :
  Metric "Avg Profit" (average_profit (calculate_kpis sample_df))
    ∈ main untouched sample_df ∧
  average_profit (calculate_kpis sample_df) ≠ NaN.
Proof.
  assert (Hin : Metric "Avg Profit" (average_profit (calculate_kpis sample_df))
                ∈ main untouched sample_df).
  { apply elem_of_main. do 2 right. left.
    rewrite untouched_shows_sample. unfold display_kpis.
    do 2 apply list_elem_of_further. apply list_elem_of_here. }
  split; [exact Hin|].
  exact (proj1 (main_no_NaN untouched sample_df) _ _ Hin).
Defined.

Lemma apply_filters_no_match_witness :
  ("All" ∉ chosen DRegion (choose DRegion ["Mars"] all_selected)) ∧
  (∀ r, r ∈ sample_df →
        column DRegion r ∉ chosen DRegion (choose DRegion ["Mars"] all_selected)) ∧
  apply_filters (choose DRegion ["Mars"] all_selected) sample_df = [].
Proof.
  assert (Hall : "All" ∉ chosen DRegion (choose DRegion ["Mars"] all_selected))
    by compute_done.
  assert (Hnone : ∀ r, r ∈ sample_df →
    column DRegion r ∉ chosen DRegion (choose DRegion ["Mars"] all_selected)).
  { intros r Hr. unfold sample_df in Hr.
    rewrite !elem_of_cons, elem_of_nil in Hr.
    destruct Hr as [->|[->|[->|[]]]]; compute_done. }
  split; [exact Hall|split; [exact Hnone|]].
  exact (apply_filters_no_match DRegion _ sample_df Hall Hnone).
Defined.
